(** * Hartley action server: action resolution and execution pipeline

    A shallow embedding of the Go sources of the Hartley server and the
    properties of its request pipeline.

    Four programs of the repository are embedded:
    - [Directives]: the server with the two-letter directive prefixes
      ([parsePrefix], [handlePythonCommand], [handleShellCommand],
      [handleConversational], [extractValidJSON]);
    - [HartleyMain]: [hartley-main.go], whose [actionHandler] reads
      [systemPrompt.txt] on every request and has the generation path inline;
    - [Plain]: the first server, which runs python3 only and answers every
      failure with an error object;
    - [Marker]: the server that decodes the output of a script from the text
      [{"result"] on.
    [runPython], [geminiRespToMap], [jsonResponse] and [logToDB] have the same
    text in the programs that have them and are embedded once.

    The operating system, the network, the database and Go's [encoding/json]
    are collaborators of the code: they are records of operations ([Host],
    [JSON]) that every definition takes as a parameter, so that every theorem
    holds for all their behaviours.  A concrete JSON codec and concrete hosts
    are defined for the executable examples. *)

From Stdlib Require Import Ascii String List Bool Arith ZArith Lia.
From stdpp Require Import base option gmap strings list.

Set Warnings "-register-all".
Set Default Proof Using "Type".

Local Open Scope string_scope.
Local Open Scope list_scope.
Local Open Scope stdpp_scope.

(** ** Go values *)

(** [[]byte] and [string] are both byte sequences. *)
Abbreviation bytes := string (only parsing).

(** The [error] interface: the text of [Error()] and the answer of
    [errors.Is(err, exec.ErrNotFound)]. *)
Record error := mkError { Error : string; Is_ErrNotFound : bool }.

Definition errors_New (text : string) : error := mkError text false.

(** A Go pair [(value, err)] where the value is meaningful only when [err] is
    nil. *)
Inductive result (A : Type) : Type :=
| Ok (a : A)
| Err (e : error).
Arguments Ok {A} a.
Arguments Err {A} e.

(** [interface{}] holding what [encoding/json] produces: a number is kept as
    the text of its literal. *)
Inductive Value : Type :=
| VNil
| VBool (b : bool)
| VNumber (literal : string)
| VString (s : string)
| VArray (l : list Value)
| VMap (m : gmap string Value).

(** [map[string]interface{}]: [None] is the nil map. *)
Abbreviation GoMap := (option (gmap string Value)) (only parsing).

(** The value [json.Marshal] sees for a [map[string]interface{}]. *)
Definition map_Value (m : GoMap) : Value :=
  match m with
  | Some m => VMap m
  | None => VNil
  end.

Definition field (key : string) (m : GoMap) : option Value :=
  match m with
  | Some m => m !! key
  | None => None
  end.

(** ** Types of the program *)

Record Config := mkConfig {
  ServerPort : Z;
  GeminiAPIKey : string;
  GeminiEndpoint : string }.

Record Action := mkAction {
  Name : string;
  Description : string;
  Script : string;
  Function : string }.

Record ActionRequest := mkActionRequest {
  req_Action : string;
  req_Params : GoMap }.

Record GeminiPart := mkGeminiPart { Text : string }.

Record GeminiContent := mkGeminiContent {
  Parts : list GeminiPart;
  Role : string }.

Record GeminiCandidate := mkGeminiCandidate {
  Content : GeminiContent;
  FinishReason : string }.

Record GeminiResponse := mkGeminiResponse {
  Candidates : list GeminiCandidate }.

(** What [json.Marshal] sees for the struct values of the program (field
    names from the struct tags). *)
Definition GeminiPart_Value (p : GeminiPart) : Value :=
  VMap {[ "text" := VString (Text p) ]}.

Definition GeminiContent_Value (c : GeminiContent) : Value :=
  VMap (<["parts" := VArray (map GeminiPart_Value (Parts c))]>
        {[ "role" := VString (Role c) ]}).

Definition GeminiCandidate_Value (c : GeminiCandidate) : Value :=
  VMap (<["content" := GeminiContent_Value (Content c)]>
        {[ "finishReason" := VString (FinishReason c) ]}).

Definition GeminiResponse_Value (g : GeminiResponse) : Value :=
  VMap {[ "candidates" := VArray (map GeminiCandidate_Value (Candidates g)) ]}.

Definition ActionRequest_Value (r : ActionRequest) : Value :=
  VMap (<["action" := VString (req_Action r)]>
        {[ "params" := map_Value (req_Params r) ]}).

(** ** Package [strings] *)

Definition LF : string := String "010" EmptyString.

(** [strings.Contains(s, substr)] *)
Fixpoint strings_Contains (s substr : string) : bool :=
  if String.prefix substr s then true
  else match s with
       | EmptyString => false
       | String _ s' => strings_Contains s' substr
       end.

(** [strings.Split(s, sep)] for a non-empty [sep]: [skip] counts the bytes of
    a separator still to be passed over, [cur] holds the current piece in
    reverse. *)
Fixpoint split_from (sep : string) (skip : nat) (cur : string) (s : string)
  : list string :=
  match s with
  | EmptyString => [String.rev cur]
  | String c s' =>
      match skip with
      | S k => split_from sep k cur s'
      | O =>
          if String.prefix sep s
          then String.rev cur :: split_from sep (String.length sep - 1) EmptyString s'
          else split_from sep 0 (String c cur) s'
      end
  end.

Definition strings_Split (s sep : string) : list string :=
  split_from sep 0 EmptyString s.

(** The UTF-8 encodings of the runes for which [unicode.IsSpace] holds. *)
Definition bytes_of (l : list nat) : string :=
  string_of_list_ascii (map ascii_of_nat l).

Definition space_runes : list string :=
  map bytes_of
    ([ [9]; [10]; [11]; [12]; [13]; [32];
       [194; 133]; [194; 160]; [225; 154; 128] ]
     ++ map (fun k => [226; 128; 128 + k]) (seq 0 11)
     ++ [ [226; 128; 168]; [226; 128; 169]; [226; 128; 175];
          [226; 129; 159]; [227; 128; 128] ]).

Definition drop_bytes (n : nat) (s : string) : string :=
  String.substring n (String.length s - n) s.

Fixpoint trim_left (patterns : list string) (fuel : nat) (s : string) : string :=
  match fuel with
  | O => s
  | S fuel' =>
      match List.find (fun p => String.prefix p s) patterns with
      | Some p => trim_left patterns fuel' (drop_bytes (String.length p) s)
      | None => s
      end
  end.

(** [strings.TrimSpace(s)] *)
Definition strings_TrimSpace (s : string) : string :=
  let l := trim_left space_runes (String.length s) s in
  String.rev (trim_left (map String.rev space_runes) (String.length l) (String.rev l)).

(** ** Collaborators *)

(** Package [encoding/json], at the types the program uses it. *)
Record JSON := mkJSON {
  (** [json.Marshal(v)] *)
  json_Marshal : Value -> result bytes;
  (** [json.Unmarshal(data, &m)] for a nil [m map[string]interface{}]: the
      map after the call when the error is nil. *)
  json_Unmarshal_map : bytes -> result GoMap;
  (** [json.Unmarshal(data, &geminiResp)] *)
  json_Unmarshal_GeminiResponse : bytes -> result GeminiResponse;
  (** [json.NewDecoder(r.Body).Decode(&req)] *)
  json_Decode_ActionRequest : bytes -> result ActionRequest }.

(** What the handler does to the outside, with what the outside answered. *)
Inductive Event : Type :=
| EvExec (name : string) (args : list string) (out : bytes) (err : option error)
| EvHttpPost (url contentType : string) (body : bytes) (err : option error)
| EvReadAll (res : result bytes)
| EvBodyClose
| EvTempFile (dir pattern : string) (res : result string)
| EvFileWrite (name : string) (data : bytes) (err : option error)
| EvFileClose (name : string)
| EvRemove (name : string)
| EvReadFile (name : string) (res : result bytes)
| EvDbExec (action request response : string) (err : option error)
| EvLog (line : string)
| EvWriteHeader (status : nat)
| EvHeaderSet (key value : string)
| EvWrite (data : bytes).

(** The host of the process: operating system, network and database, as
    operations on a state [W] of the outside world. *)
Record Host (W : Type) := mkHost {
  (** [exec.Command(name, args...).CombinedOutput()] *)
  exec_CombinedOutput : string -> list string -> W -> bytes * option error * W;
  (** [http.Post(url, contentType, body)] *)
  http_Post : string -> string -> bytes -> W -> option error * W;
  (** [ioutil.ReadAll(httpResp.Body)] *)
  ioutil_ReadAll : W -> result bytes * W;
  (** [httpResp.Body.Close()] *)
  Body_Close : W -> W;
  (** [ioutil.TempFile(dir, pattern)]: the name of the file created *)
  ioutil_TempFile : string -> string -> W -> result string * W;
  (** [tmpFile.Write(data)] *)
  File_Write : string -> bytes -> W -> option error * W;
  (** [tmpFile.Close()] *)
  File_Close : string -> W -> W;
  (** [os.Remove(name)] *)
  os_Remove : string -> W -> W;
  (** [ioutil.ReadFile(name)] *)
  ioutil_ReadFile : string -> W -> result bytes * W;
  (** [dbConn.Exec("INSERT INTO logs ...", time.Now(), action, request, response)] *)
  db_Exec : string -> string -> string -> W -> option error * W }.
Arguments exec_CombinedOutput {W}.
Arguments http_Post {W}.
Arguments ioutil_ReadAll {W}.
Arguments Body_Close {W}.
Arguments ioutil_TempFile {W}.
Arguments File_Write {W}.
Arguments File_Close {W}.
Arguments os_Remove {W}.
Arguments ioutil_ReadFile {W}.
Arguments db_Exec {W}.

(** ** The monad of the handler *)

(** How a Go function ends: it returns, the process exits ([log.Fatalf]), or
    it panics (an index out of range). *)
Inductive Outcome (A : Type) : Type :=
| Returned (a : A)
| Exited (code : nat)
| Panicked (msg : string).
Arguments Returned {A} a.
Arguments Exited {A} code.
Arguments Panicked {A} msg.

(** A computation runs from a state of the world and yields its outcome, the
    new state and the events it produced, oldest first. *)
Definition M (W A : Type) : Type := W -> Outcome A * W * list Event.

Definition ret {W A} (a : A) : M W A := fun w => (Returned a, w, []).

Definition bind {W A B} (m : M W A) (f : A -> M W B) : M W B :=
  fun w =>
    match m w with
    | (Returned a, w1, t1) =>
        match f a w1 with
        | (o, w2, t2) => (o, w2, t1 ++ t2)
        end
    | (Exited c, w1, t1) => (Exited c, w1, t1)
    | (Panicked msg, w1, t1) => (Panicked msg, w1, t1)
    end.

#[global] Instance M_ret {W} : MRet (M W) := fun A => ret.
#[global] Instance M_bind {W} : MBind (M W) := fun A B f m => bind m f.

Definition emit {W} (e : Event) : M W unit := fun w => (Returned tt, w, [e]).

Definition os_Exit {W A} (code : nat) : M W A := fun w => (Exited code, w, []).

Definition panic {W A} (msg : string) : M W A := fun w => (Panicked msg, w, []).

(** [s[i]] on a slice: a run-time panic when [i] is out of range. *)
Definition index {W A} (s : list A) (i : nat) : M W A :=
  match s !! i with
  | Some a => ret a
  | None => panic "runtime error: index out of range"
  end.

(** [defer d] registered before [m] in a function whose remaining body is [m]:
    [d] runs when the function returns. *)
Definition defer {W A} (d : M W unit) (m : M W A) : M W A :=
  a ← m; d;; mret a.

Definition log_Printf {W} (line : string) : M W unit := emit (EvLog line).

(** [log.Fatalf]: the line is logged and the process exits with status 1. *)
Definition log_Fatalf {W A} (line : string) : M W A :=
  log_Printf line;; os_Exit 1.

Definition outcome {W A} (r : Outcome A * W * list Event) : Outcome A := r.1.1.
Definition trace {W A} (r : Outcome A * W * list Event) : list Event := r.2.

(** An incoming HTTP request, as far as the handler reads it. *)
Record Request := mkRequest {
  Method : string;
  Body : bytes }.

Definition http_MethodPost : string := "POST".
Definition http_StatusMethodNotAllowed : nat := 405.
Definition http_StatusBadRequest : nat := 400.

Definition DQ : string := String "034" EmptyString.

(** The map literal [map[string]interface{}{"error": text}]. *)
Definition error_map (text : string) : GoMap :=
  Some {[ "error" := VString text ]}.

(** The map literal [map[string]interface{}{"error": text, key: raw}]. *)
Definition error_map_with (text key raw : string) : GoMap :=
  Some (<["error" := VString text]> {[ key := VString raw ]}).

(** ** Functions common to both programs *)

Section Common.
Context {W : Type} (J : JSON) (H : Host W).

(** *** Calls to the host, recorded in the trace *)

Definition exec_Command (name : string) (args : list string)
  : M W (bytes * option error) :=
  fun w =>
    let '(out, err, w') := exec_CombinedOutput H name args w in
    (Returned (out, err), w', [EvExec name args out err]).

Definition httpPost (url contentType : string) (body : bytes)
  : M W (option error) :=
  fun w =>
    let '(err, w') := http_Post H url contentType body w in
    (Returned err, w', [EvHttpPost url contentType body err]).

Definition readAll : M W (result bytes) :=
  fun w =>
    let '(res, w') := ioutil_ReadAll H w in
    (Returned res, w', [EvReadAll res]).

Definition bodyClose : M W unit :=
  fun w => (Returned tt, Body_Close H w, [EvBodyClose]).

Definition tempFile (dir pattern : string) : M W (result string) :=
  fun w =>
    let '(res, w') := ioutil_TempFile H dir pattern w in
    (Returned res, w', [EvTempFile dir pattern res]).

Definition fileWrite (name : string) (data : bytes) : M W (option error) :=
  fun w =>
    let '(err, w') := File_Write H name data w in
    (Returned err, w', [EvFileWrite name data err]).

Definition fileClose (name : string) : M W unit :=
  fun w => (Returned tt, File_Close H name w, [EvFileClose name]).

Definition osRemove (name : string) : M W unit :=
  fun w => (Returned tt, os_Remove H name w, [EvRemove name]).

Definition readFile (name : string) : M W (result bytes) :=
  fun w =>
    let '(res, w') := ioutil_ReadFile H name w in
    (Returned res, w', [EvReadFile name res]).

Definition dbExec (action request response : string) : M W (option error) :=
  fun w =>
    let '(err, w') := db_Exec H action request response w in
    (Returned err, w', [EvDbExec action request response err]).

(** *** [runPython] *)

(** The condition under which [runPython] goes on to the next interpreter:
    [err != nil && (errors.Is(err, exec.ErrNotFound) ||
     strings.Contains(string(out), "Python was not found"))]. *)
Definition not_found (out : bytes) (err : option error) : bool :=
  match err with
  | Some e => Is_ErrNotFound e || strings_Contains out "Python was not found"
  | None => false
  end.

Definition runPython (args : list string) : M W (bytes * option error) :=
  '(out, err) ← exec_Command "python3" args;
  if not_found out err then
    log_Printf "python3 not found, falling back to python";;
    '(out, err) ← exec_Command "python" args;
    if not_found out err then
      log_Printf "python not found, falling back to py";;
      exec_Command "py" args
    else mret (out, err)
  else mret (out, err).

(** *** [geminiRespToMap] *)

Definition geminiRespToMap (geminiResp : GeminiResponse) : GoMap :=
  match json_Marshal J (GeminiResponse_Value geminiResp) with
  | Err _ => error_map "Error converting Gemini response"
  | Ok data =>
      match json_Unmarshal_map J data with
      | Err _ => error_map "Error converting Gemini response"
      | Ok result => result
      end
  end.

(** *** [jsonResponse] *)

(** [json.NewEncoder(w).Encode(data)] writes the encoding and a newline, and
    nothing when the value does not encode; its error is dropped. *)
Definition jsonResponse (data : Value) : M W unit :=
  emit (EvHeaderSet "Content-Type" "application/json");;
  match json_Marshal J data with
  | Ok b => emit (EvWrite (b +:+ LF))
  | Err _ => mret tt
  end.

(** *** [logToDB] *)

(** [b, _ := json.Marshal(v); string(b)] *)
Definition marshal_or_empty (v : Value) : string :=
  match json_Marshal J v with
  | Ok b => b
  | Err _ => ""
  end.

Definition logToDB (action : string) (request response : Value) : M W unit :=
  let reqJSON := marshal_or_empty request in
  let respJSON := marshal_or_empty response in
  err ← dbExec action reqJSON respJSON;
  match err with
  | Some e => log_Printf ("Error logging to database: " +:+ Error e)
  | None => mret tt
  end.

(** *** The loop over the registered actions *)

(** [for _, act := range actions { if act.Name == req.Action { ... break } }]
    with the variables [actionFound] and [resp] it assigns; the loop has the
    same text in both programs. *)
Fixpoint rangeActions (acts : list Action) (req : ActionRequest)
  : M W (bool * GoMap) :=
  match acts with
  | [] => mret (false, None)
  | act :: rest =>
      if String.eqb (Name act) (req_Action req) then
        match json_Marshal J (map_Value (req_Params req)) with
        | Err _ => mret (true, error_map "Error marshalling parameters")
        | Ok paramsJSON =>
            '(output, err) ← runPython [Script act; Function act; paramsJSON];
            match err with
            | Some e =>
                mret (true,
                      error_map_with ("Error executing action: " +:+ Error e)
                                     "output" output)
            | None =>
                match json_Unmarshal_map J output with
                | Err _ =>
                    mret (true,
                          error_map_with "Error parsing action output"
                                         "raw_output" output)
                | Ok resp => mret (true, resp)
                end
            end
        end
      else rangeActions rest req
  end.

(** The request body sent to the generation service:
    [{"contents": [{"parts": [{"text": promptText}]}]}]. *)
Definition geminiReq (promptText : string) : Value :=
  VMap {[ "contents" :=
    VArray [ VMap {[ "parts" :=
      VArray [ VMap {[ "text" := VString promptText ]} ] ]} ] ]}.

(** [fmt.Sprintf("%s?key=%s", config.GeminiEndpoint, config.GeminiAPIKey)] *)
Definition gemini_url (config : Config) : string :=
  GeminiEndpoint config +:+ "?key=" +:+ GeminiAPIKey config.

(** [len(geminiResp.Candidates) == 0 ||
     len(geminiResp.Candidates[0].Content.Parts) == 0]: the second operand is
    evaluated only when the first is false. *)
Definition no_content (geminiResp : GeminiResponse) : M W bool :=
  if Nat.eqb (length (Candidates geminiResp)) 0 then mret true
  else
    c ← index (Candidates geminiResp) 0;
    mret (Nat.eqb (length (Parts (Content c))) 0).

(** [geminiResp.Candidates[0].Content.Parts[0].Text] *)
Definition first_text (geminiResp : GeminiResponse) : M W string :=
  c ← index (Candidates geminiResp) 0;
  p ← index (Parts (Content c)) 0;
  mret (Text p).

End Common.

(** ** The server with directive prefixes *)

Module Directives.
Section Program.
Context {W : Type} (J : JSON) (H : Host W).
(** The globals [config] and [actions], set once by [main]. *)
Context (config : Config) (actions : list Action).

(** *** [parsePrefix] *)

Definition parsePrefix (input : string) : string * string :=
if (3 <=? String.length input)%nat
   && bool_decide (String.get 2 input = Some " "%char)
then
  let prefix := String.substring 0 2 input in
  if String.eqb prefix "py" || String.eqb prefix "sh" then
    let payload := strings_TrimSpace (drop_bytes 3 input) in
    (prefix, payload)
  else ("", input)
else ("", input).

(** *** [extractValidJSON] *)

(** The loop [for i := len(lines) - 1; i >= 0; i--] with [n = i + 1]. *)
Fixpoint scan_lines (lines : list string) (n : nat) : Outcome (result GoMap) :=
match n with
| O => Returned (Err (errors_New "no valid JSON found in output"))
| S i =>
    match lines !! i with
    | None => Panicked "runtime error: index out of range"
    | Some l =>
        let line := strings_TrimSpace l in
        if String.eqb line "" then scan_lines lines i
        else
          match json_Unmarshal_map J line with
          | Ok result => Returned (Ok result)
          | Err _ => scan_lines lines i
          end
    end
end.

Definition extractValidJSON (output : bytes) : Outcome (result GoMap) :=
match json_Unmarshal_map J output with
| Ok result => Returned (Ok result)
| Err _ =>
    let lines := strings_Split output LF in
    scan_lines lines (length lines)
end.

(** A function without effects called from the handler. *)
Definition call {A} (o : Outcome A) : M W A := fun w => (o, w, []).

(** *** [handlePythonCommand] *)

Definition pythonPrompt : string :=
"You are a Python code generation assistant. Generate a valid Python script that, when executed, prints a JSON object with a single key "
+:+ DQ +:+ "result" +:+ DQ +:+
" containing the answer to the following query: ".

Definition handlePythonCommand (payload : string) : M W GoMap :=
let promptText := pythonPrompt +:+ payload in
match json_Marshal J (geminiReq promptText) with
| Err _ => mret (error_map "Error marshalling Gemini request")
| Ok reqBody =>
  let url := gemini_url config in
  err ← httpPost H url "application/json" reqBody;
  match err with
  | Some _ => mret (error_map "Error calling Gemini API")
  | None =>
    defer (bodyClose H) (
    res ← readAll H;
    match res with
    | Err _ => mret (error_map "Error reading Gemini response")
    | Ok body =>
      log_Printf ("Gemini raw response: " +:+ body);;
      match json_Unmarshal_GeminiResponse J body with
      | Err _ =>
          mret (error_map_with "Error parsing Gemini response"
                               "raw_response" body)
      | Ok geminiResp =>
        empty ← no_content geminiResp;
        if empty : bool then
          mret (error_map_with "No content generated by Gemini"
                               "raw_response" body)
        else
          generatedCode ← first_text geminiResp;
          log_Printf ("Generated Python code: " +:+ generatedCode);;
          res ← tempFile H "" "hartley_generated_*.py";
          match res with
          | Err e =>
              log_Printf ("Error creating temporary file for generated code: "
                          +:+ Error e);;
              mret (geminiRespToMap J geminiResp)
          | Ok tmpFile =>
            defer (osRemove H tmpFile) (
            err ← fileWrite H tmpFile generatedCode;
            fileClose H tmpFile;;
            match err with
            | Some e =>
                log_Printf ("Error writing generated code to temporary file: "
                            +:+ Error e);;
                mret (geminiRespToMap J geminiResp)
            | None =>
              '(pythonOutput, err) ← runPython H [tmpFile];
              log_Printf ("Python execution output: " +:+ pythonOutput);;
              match err with
              | Some e =>
                  log_Printf ("Error executing generated code: " +:+ Error e);;
                  mret (geminiRespToMap J geminiResp)
              | None =>
                match json_Unmarshal_map J pythonOutput with
                | Ok parsedResp => mret parsedResp
                | Err e =>
                  log_Printf ("Error parsing output from generated code: "
                              +:+ Error e);;
                  extracted ← call (extractValidJSON pythonOutput);
                  match extracted with
                  | Ok parsedResp => mret parsedResp
                  | Err e =>
                      log_Printf ("Error extracting valid JSON: " +:+ Error e);;
                      mret (geminiRespToMap J geminiResp)
                  end
                end
              end
            end)
          end
      end
    end)
  end
end.

(** *** [handleShellCommand] *)

Definition handleShellCommand (payload : string) : M W GoMap :=
let params := VMap {[ "command" := VString payload ]} in
match json_Marshal J params with
| Err _ => mret (error_map "Error marshalling shell command parameters")
| Ok paramsJSON =>
  '(output, err) ← runPython H ["python/action_runner.py";
                                "run_terminal_command"; paramsJSON];
  match err with
  | Some e =>
      mret (error_map_with ("Error executing shell command: " +:+ Error e)
                           "output" output)
  | None =>
    match json_Unmarshal_map J output with
    | Ok resp => mret resp
    | Err _ =>
      extracted ← call (extractValidJSON output);
      match extracted with
      | Ok resp => mret resp
      | Err _ =>
          mret (error_map_with "Error parsing shell command output"
                               "raw_output" output)
      end
    end
  end
end.

(** *** [handleConversational] *)

Definition conversationalPrompt : string :=
"You are a helpful AI assistant. Pretend you are an AI named 'Hartley'. 'Hartley' was developed by Micah Crandell. 'Hartley' is running on his device. Hartley is solely a Python code generator/assistant. Hartley's working environment is in Micah's python terminal. Hartley has complete access to Micah's device through the python environment. Your task is to generate valid Python code that, when executed, prints a valid JSON string to standard output. The JSON must be an object with a single key "
+:+ DQ +:+ "result" +:+ DQ +:+
" whose value is the answer to the user's query. The generated code must include all necessary import statements so that it runs correctly. You must provide the complete python script. Your output must consist solely of plain Python code without any markdown formatting, triple backticks, or code fences. The code must start with a print() statement, and nothing else should be included. Now, process the following query by writing python code: ".

Definition handleConversational (query : string) : M W GoMap :=
let promptText := conversationalPrompt +:+ query in
match json_Marshal J (geminiReq promptText) with
| Err _ => mret (error_map "Error marshalling Gemini request")
| Ok reqBody =>
  let url := gemini_url config in
  err ← httpPost H url "application/json" reqBody;
  match err with
  | Some _ => mret (error_map "Error calling Gemini API")
  | None =>
    defer (bodyClose H) (
    res ← readAll H;
    match res with
    | Err _ => mret (error_map "Error reading Gemini response")
    | Ok body =>
      log_Printf ("Gemini raw response: " +:+ body);;
      match json_Unmarshal_GeminiResponse J body with
      | Err _ =>
          mret (error_map_with "Error parsing Gemini response"
                               "raw_response" body)
      | Ok geminiResp =>
        empty ← no_content geminiResp;
        if empty : bool then
          mret (error_map_with "No content generated by Gemini"
                               "raw_response" body)
        else
          generatedCode ← first_text geminiResp;
          log_Printf ("Generated Python code: " +:+ generatedCode);;
          res ← tempFile H "" "hartley_generated_*.py";
          match res with
          | Err e =>
              log_Printf ("Error creating temporary file for generated code: "
                          +:+ Error e);;
              mret (geminiRespToMap J geminiResp)
          | Ok tmpFile =>
            defer (osRemove H tmpFile) (
            err ← fileWrite H tmpFile generatedCode;
            fileClose H tmpFile;;
            match err with
            | Some e =>
                log_Printf ("Error writing generated code to temporary file: "
                            +:+ Error e);;
                mret (geminiRespToMap J geminiResp)
            | None =>
              '(pythonOutput, err) ← runPython H [tmpFile];
              log_Printf ("Python execution output: " +:+ pythonOutput);;
              match err with
              | Some e =>
                  log_Printf ("Error executing generated code: " +:+ Error e);;
                  mret (geminiRespToMap J geminiResp)
              | None =>
                match json_Unmarshal_map J pythonOutput with
                | Ok parsedResp => mret parsedResp
                | Err e =>
                  log_Printf ("Error parsing output from generated code: "
                              +:+ Error e);;
                  extracted ← call (extractValidJSON pythonOutput);
                  match extracted with
                  | Ok parsedResp => mret parsedResp
                  | Err e =>
                      log_Printf ("Error extracting valid JSON: " +:+ Error e);;
                      mret (geminiRespToMap J geminiResp)
                  end
                end
              end
            end)
          end
      end
    end)
  end
end.

(** *** [actionHandler] *)

(** The part of [actionHandler] between the decoding of the request and the
  audit record: it computes [resp]. *)
Definition resolve (req : ActionRequest) : M W GoMap :=
let '(prefix, payload) := parsePrefix (req_Action req) in
if String.eqb prefix "py" then handlePythonCommand payload
else if String.eqb prefix "sh" then handleShellCommand payload
else
  '(actionFound, resp) ← rangeActions J H actions req;
  if negb actionFound then handleConversational (req_Action req)
  else mret resp.

Definition actionHandler (r : Request) : M W unit :=
if negb (String.eqb (Method r) http_MethodPost) then
  emit (EvWriteHeader http_StatusMethodNotAllowed);;
  jsonResponse J (VMap {[ "error" := VString "Method not allowed" ]})
else
  match json_Decode_ActionRequest J (Body r) with
  | Err _ =>
      emit (EvWriteHeader http_StatusBadRequest);;
      jsonResponse J (VMap {[ "error" := VString "Invalid JSON" ]})
  | Ok req =>
      resp ← resolve req;
      logToDB J H (req_Action req) (ActionRequest_Value req) (map_Value resp);;
      jsonResponse J (map_Value resp)
  end.

End Program.
End Directives.

(** ** [hartley-main.go] *)

Module HartleyMain.
Section Program.
Context {W : Type} (J : JSON) (H : Host W).
Context (config : Config) (actions : list Action).

(** The deferred calls of [actionHandler] run when it returns, the last
  registered first. *)
Fixpoint run_deferred (ds : list (M W unit)) : M W unit :=
match ds with
| [] => mret tt
| d :: rest => d;; run_deferred rest
end.

(** The branch [if !actionFound { ... }] of [actionHandler]: the value it
  assigns to [resp] and the calls it defers, the last registered first. *)
Definition generate (systemPrompt : string) (req : ActionRequest)
: M W (GoMap * list (M W unit)) :=
let userQuery := req_Action req in
let promptText := systemPrompt +:+ userQuery in
match json_Marshal J (geminiReq promptText) with
| Err _ => mret (error_map "Error marshalling Gemini request", [])
| Ok reqBody =>
  let url := gemini_url config in
  err ← httpPost H url "application/json" reqBody;
  match err with
  | Some _ => mret (error_map "Error calling Gemini API", [])
  | None =>
    let deferred := [bodyClose H] in
    res ← readAll H;
    match res with
    | Err _ => mret (error_map "Error reading Gemini response", deferred)
    | Ok body =>
      log_Printf ("Gemini raw response: " +:+ body);;
      match json_Unmarshal_GeminiResponse J body with
      | Err _ =>
          mret (error_map_with "Error parsing Gemini response"
                               "raw_response" body, deferred)
      | Ok geminiResp =>
        empty ← no_content geminiResp;
        if empty : bool then
          mret (error_map_with "No content generated by Gemini"
                               "raw_response" body, deferred)
        else
          generatedCode ← first_text geminiResp;
          log_Printf ("Generated Python code: " +:+ generatedCode);;
          res ← tempFile H "" "hartley_generated_*.py";
          match res with
          | Err e =>
              log_Printf ("Error creating temporary file for generated code: "
                          +:+ Error e);;
              mret (geminiRespToMap J geminiResp, deferred)
          | Ok tmpFile =>
            let deferred := osRemove H tmpFile :: deferred in
            err ← fileWrite H tmpFile generatedCode;
            fileClose H tmpFile;;
            match err with
            | Some e =>
                log_Printf ("Error writing generated code to temporary file: "
                            +:+ Error e);;
                mret (geminiRespToMap J geminiResp, deferred)
            | None =>
              '(pythonOutput, err) ← runPython H [tmpFile];
              log_Printf ("Python execution output: " +:+ pythonOutput);;
              match err with
              | Some e =>
                  log_Printf ("Error executing generated code: " +:+ Error e);;
                  mret (geminiRespToMap J geminiResp, deferred)
              | None =>
                match json_Unmarshal_map J pythonOutput with
                | Err e =>
                    log_Printf ("Error parsing output from generated code: "
                                +:+ Error e);;
                    mret (geminiRespToMap J geminiResp, deferred)
                | Ok parsedResp => mret (parsedResp, deferred)
                end
              end
            end
          end
      end
    end
  end
end.

(** The part of [actionHandler] between the decoding of the request and the
  audit record. *)
Definition resolve (req : ActionRequest) : M W (GoMap * list (M W unit)) :=
'(actionFound, resp) ← rangeActions J H actions req;
res ← readFile H "systemPrompt.txt";
match res with
| Err e => log_Fatalf ("Error reading systemPrompt.txt: " +:+ Error e)
| Ok systemPromptBytes =>
    let systemPrompt := systemPromptBytes in
    if negb actionFound then generate systemPrompt req
    else mret (resp, [])
end.

Definition actionHandler (r : Request) : M W unit :=
if negb (String.eqb (Method r) http_MethodPost) then
  emit (EvWriteHeader http_StatusMethodNotAllowed);;
  jsonResponse J (VMap {[ "error" := VString "Method not allowed" ]})
else
  match json_Decode_ActionRequest J (Body r) with
  | Err _ =>
      emit (EvWriteHeader http_StatusBadRequest);;
      jsonResponse J (VMap {[ "error" := VString "Invalid JSON" ]})
  | Ok req =>
      '(resp, deferred) ← resolve req;
      logToDB J H (req_Action req) (ActionRequest_Value req) (map_Value resp);;
      jsonResponse J (map_Value resp);;
      run_deferred deferred
  end.

End Program.
End HartleyMain.

(** ** The first server: [python3] only *)

(** [strings.Index(s, substr)]: the index of the first instance of [substr]
    in [s], or -1. *)
Fixpoint strings_Index (s substr : string) : Z :=
  if String.prefix substr s then 0%Z
  else match s with
       | EmptyString => (-1)%Z
       | String _ s' =>
           let i := strings_Index s' substr in
           if (i =? -1)%Z then (-1)%Z else (i + 1)%Z
       end.

(** The prompt of the first server and of the server with the marker. *)
Definition strictPrompt : string :=
  "You are a helpful AI assistant. Pretend you are an AI named 'Hartley'. 'Hartley' was developed by Micah Crandell. 'Hartley' is running on his device. Hartley is solely a Python code generator/assistant. Hartley's working environment is in Micah's python terminal. Hartley has complete access to Micah's device through the python environment. Your task is to generate valid Python code that, when executed, prints a valid JSON string to standard output. The JSON must be an object with a single key "
  +:+ DQ +:+ "result" +:+ DQ +:+
  " whose value is the answer to the user's query. The generated code must include all necessary import statements so that it runs correctly. You must provide the complete python script. Your output must consist solely of plain Python code without any markdown formatting, triple backticks, or code fences. The code must start with a print() statement, and nothing else should be included. For example, if the query is: How does AI work? Your output should be exactly: print('{"
  +:+ DQ +:+ "result" +:+ DQ +:+ ": " +:+ DQ +:+
  "AI works by processing data and learning patterns." +:+ DQ +:+
  "}') Now, process the following query by writing python code: ".

(** The first program of the repository: the interpreter is [python3], run
    directly, and every failure is an error object. *)
Module Plain.
Section Program.
Context {W : Type} (J : JSON) (H : Host W).
Context (config : Config) (actions : list Action).

(** [for _, act := range actions { ... }] with [actionFound] and [resp]. *)
Fixpoint rangeActions (acts : list Action) (req : ActionRequest)
  : M W (bool * GoMap) :=
  match acts with
  | [] => mret (false, None)
  | act :: rest =>
      if String.eqb (Name act) (req_Action req) then
        match json_Marshal J (map_Value (req_Params req)) with
        | Err _ => mret (true, error_map "Error marshalling parameters")
        | Ok paramsJSON =>
            '(output, err) ← exec_Command H "python3"
                               [Script act; Function act; paramsJSON];
            match err with
            | Some e =>
                mret (true,
                      error_map_with ("Error executing action: " +:+ Error e)
                                     "output" output)
            | None =>
                match json_Unmarshal_map J output with
                | Err _ =>
                    mret (true,
                          error_map_with "Error parsing action output"
                                         "raw_output" output)
                | Ok resp => mret (true, resp)
                end
            end
        end
      else rangeActions rest req
  end.

(** The branch [if !actionFound { ... }]: the value it assigns to [resp] and
    the calls it defers, the last registered first. *)
Definition generate (req : ActionRequest) : M W (GoMap * list (M W unit)) :=
  let userQuery := req_Action req in
  let promptText := strictPrompt +:+ userQuery in
  match json_Marshal J (geminiReq promptText) with
  | Err _ => mret (error_map "Error marshalling Gemini request", [])
  | Ok reqBody =>
    let url := gemini_url config in
    err ← httpPost H url "application/json" reqBody;
    match err with
    | Some _ => mret (error_map "Error calling Gemini API", [])
    | None =>
      let deferred := [bodyClose H] in
      res ← readAll H;
      match res with
      | Err _ => mret (error_map "Error reading Gemini response", deferred)
      | Ok body =>
        log_Printf ("Gemini raw response: " +:+ body);;
        match json_Unmarshal_GeminiResponse J body with
        | Err _ =>
            mret (error_map_with "Error parsing Gemini response"
                                 "raw_response" body, deferred)
        | Ok geminiResp =>
          empty ← no_content geminiResp;
          if empty : bool then
            mret (error_map_with "No content generated by Gemini"
                                 "raw_response" body, deferred)
          else
            generatedCode ← first_text geminiResp;
            log_Printf ("Generated Python code: " +:+ generatedCode);;
            res ← tempFile H "" "hartley_generated_*.py";
            match res with
            | Err _ =>
                mret (error_map "Error creating temporary file for generated code",
                      deferred)
            | Ok tmpFile =>
              let deferred := osRemove H tmpFile :: deferred in
              err ← fileWrite H tmpFile generatedCode;
              fileClose H tmpFile;;
              match err with
              | Some _ =>
                  mret (error_map "Error writing generated code to temporary file",
                        deferred)
              | None =>
                '(pythonOutput, err) ← exec_Command H "python3" [tmpFile];
                log_Printf ("Python execution output: " +:+ pythonOutput);;
                match err with
                | Some e =>
                    mret (error_map_with
                            ("Error executing generated code: " +:+ Error e)
                            "output" pythonOutput, deferred)
                | None =>
                  match json_Unmarshal_map J pythonOutput with
                  | Err _ =>
                      mret (error_map_with "Error parsing output from generated code"
                                           "raw_output" pythonOutput, deferred)
                  | Ok resp => mret (resp, deferred)
                  end
                end
              end
            end
        end
      end
    end
  end.

(** The part of [actionHandler] between the decoding of the request and the
    audit record. *)
Definition resolve (req : ActionRequest) : M W (GoMap * list (M W unit)) :=
  '(actionFound, resp) ← rangeActions actions req;
  if negb actionFound then generate req
  else mret (resp, []).

Definition actionHandler (r : Request) : M W unit :=
  if negb (String.eqb (Method r) http_MethodPost) then
    emit (EvWriteHeader http_StatusMethodNotAllowed);;
    jsonResponse J (VMap {[ "error" := VString "Method not allowed" ]})
  else
    match json_Decode_ActionRequest J (Body r) with
    | Err _ =>
        emit (EvWriteHeader http_StatusBadRequest);;
        jsonResponse J (VMap {[ "error" := VString "Invalid JSON" ]})
    | Ok req =>
        '(resp, deferred) ← resolve req;
        logToDB J H (req_Action req) (ActionRequest_Value req) (map_Value resp);;
        jsonResponse J (map_Value resp);;
        HartleyMain.run_deferred deferred
    end.

End Program.
End Plain.

(** ** The server with the result marker *)

(** The program that looks for the text [{"result"] in the output of a script
    and decodes the output from there. *)
Module Marker.
Section Program.
Context {W : Type} (J : JSON) (H : Host W).
Context (config : Config) (actions : list Action).

(** The raw string literal [{"result"]. *)
Definition marker : string := "{" +:+ DQ +:+ "result" +:+ DQ.

(** [outputStr[jsonStartIndex:]] *)
Definition slice_from (s : string) (i : Z) : string := drop_bytes (Z.to_nat i) s.

(** [for _, act := range actions { ... }] with [actionFound] and [resp]. *)
Fixpoint rangeActions (acts : list Action) (req : ActionRequest)
  : M W (bool * GoMap) :=
  match acts with
  | [] => mret (false, None)
  | act :: rest =>
      if String.eqb (Name act) (req_Action req) then
        match json_Marshal J (map_Value (req_Params req)) with
        | Err _ => mret (true, error_map "Error marshalling parameters")
        | Ok paramsJSON =>
            '(output, err) ← runPython H [Script act; Function act; paramsJSON];
            match err with
            | Some e =>
                mret (true,
                      error_map_with ("Error executing action: " +:+ Error e)
                                     "output" output)
            | None =>
                let outputStr := output in
                let jsonStartIndex := strings_Index outputStr marker in
                if (jsonStartIndex =? -1)%Z then
                  log_Printf ("Error: valid JSON not found in output: " +:+ outputStr);;
                  mret (true, error_map "Valid JSON not found in output")
                else
                  let jsonStr := slice_from outputStr jsonStartIndex in
                  match json_Unmarshal_map J jsonStr with
                  | Err e =>
                      log_Printf ("Error parsing extracted JSON: " +:+ Error e);;
                      mret (true, error_map "Error parsing extracted JSON")
                  | Ok parsedResp => mret (true, parsedResp)
                  end
            end
        end
      else rangeActions rest req
  end.

(** The branch [if !actionFound { ... }]: the value it assigns to [resp] and
    the calls it defers, the last registered first. *)
Definition generate (req : ActionRequest) : M W (GoMap * list (M W unit)) :=
  let userQuery := req_Action req in
  let promptText := strictPrompt +:+ userQuery in
  match json_Marshal J (geminiReq promptText) with
  | Err _ => mret (error_map "Error marshalling Gemini request", [])
  | Ok reqBody =>
    let url := gemini_url config in
    err ← httpPost H url "application/json" reqBody;
    match err with
    | Some _ => mret (error_map "Error calling Gemini API", [])
    | None =>
      let deferred := [bodyClose H] in
      res ← readAll H;
      match res with
      | Err _ => mret (error_map "Error reading Gemini response", deferred)
      | Ok body =>
        log_Printf ("Gemini raw response: " +:+ body);;
        match json_Unmarshal_GeminiResponse J body with
        | Err _ =>
            mret (error_map_with "Error parsing Gemini response"
                                 "raw_response" body, deferred)
        | Ok geminiResp =>
          empty ← no_content geminiResp;
          if empty : bool then
            mret (error_map_with "No content generated by Gemini"
                                 "raw_response" body, deferred)
          else
            generatedCode ← first_text geminiResp;
            log_Printf ("Generated Python code: " +:+ generatedCode);;
            res ← tempFile H "" "hartley_generated_*.py";
            match res with
            | Err e =>
                log_Printf ("Error creating temporary file for generated code: "
                            +:+ Error e);;
                mret (geminiRespToMap J geminiResp, deferred)
            | Ok tmpFile =>
              let deferred := osRemove H tmpFile :: deferred in
              err ← fileWrite H tmpFile generatedCode;
              fileClose H tmpFile;;
              match err with
              | Some e =>
                  log_Printf ("Error writing generated code to temporary file: "
                              +:+ Error e);;
                  mret (geminiRespToMap J geminiResp, deferred)
              | None =>
                '(pythonOutput, err) ← runPython H [tmpFile];
                log_Printf ("Python execution output: " +:+ pythonOutput);;
                match err with
                | Some e =>
                    log_Printf ("Error executing generated code: " +:+ Error e);;
                    mret (geminiRespToMap J geminiResp, deferred)
                | None =>
                  let outputStr := pythonOutput in
                  let jsonStartIndex := strings_Index outputStr marker in
                  if (jsonStartIndex =? -1)%Z then
                    log_Printf ("Error: valid JSON not found in output: "
                                +:+ outputStr);;
                    mret (geminiRespToMap J geminiResp, deferred)
                  else
                    let jsonStr := slice_from outputStr jsonStartIndex in
                    match json_Unmarshal_map J jsonStr with
                    | Err e =>
                        log_Printf ("Error parsing extracted JSON: " +:+ Error e);;
                        mret (geminiRespToMap J geminiResp, deferred)
                    | Ok parsedResp => mret (parsedResp, deferred)
                    end
                end
              end
            end
        end
      end
    end
  end.

(** The part of [actionHandler] between the decoding of the request and the
    audit record. *)
Definition resolve (req : ActionRequest) : M W (GoMap * list (M W unit)) :=
  '(actionFound, resp) ← rangeActions actions req;
  if negb actionFound then generate req
  else mret (resp, []).

Definition actionHandler (r : Request) : M W unit :=
  if negb (String.eqb (Method r) http_MethodPost) then
    emit (EvWriteHeader http_StatusMethodNotAllowed);;
    jsonResponse J (VMap {[ "error" := VString "Method not allowed" ]})
  else
    match json_Decode_ActionRequest J (Body r) with
    | Err _ =>
        emit (EvWriteHeader http_StatusBadRequest);;
        jsonResponse J (VMap {[ "error" := VString "Invalid JSON" ]})
    | Ok req =>
        '(resp, deferred) ← resolve req;
        logToDB J H (req_Action req) (ActionRequest_Value req) (map_Value resp);;
        jsonResponse J (map_Value resp);;
        HartleyMain.run_deferred deferred
    end.

End Program.
End Marker.

(** ** A JSON codec and scripted hosts for the examples *)

(** An executable instance of [JSON] after [encoding/json]: RFC 8259 syntax,
    object keys inserted from left to right (the last of two equal keys
    stays), [null] accepted for a map or a struct and leaving it unchanged,
    keys written in sorted order with Go's escapes.  Field names are matched
    exactly and a [\u] escape is decoded alone (surrogate pairs are not
    combined). *)
Module Codec.

Definition is_ws (c : ascii) : bool :=
  Ascii.eqb c " " || Ascii.eqb c "009" || Ascii.eqb c "010" || Ascii.eqb c "013".

Fixpoint skip_ws (s : string) : string :=
  match s with
  | String c r => if is_ws c then skip_ws r else s
  | EmptyString => EmptyString
  end.

Definition is_digit (c : ascii) : bool :=
  (48 <=? nat_of_ascii c)%nat && (nat_of_ascii c <=? 57)%nat.

Definition hex_val (c : ascii) : option nat :=
  let n := nat_of_ascii c in
  if is_digit c then Some (n - 48)
  else if (97 <=? n)%nat && (n <=? 102)%nat then Some (n - 87)
  else if (65 <=? n)%nat && (n <=? 70)%nat then Some (n - 55)
  else None.

(** UTF-8 of a code point below 0x10000; a surrogate becomes U+FFFD. *)
Definition utf8 (n : nat) : string :=
  if (n <? 128)%nat then bytes_of [n]
  else if (n / 64 <? 32)%nat then bytes_of [192 + n / 64; 128 + n mod 64]
  else if (216 <=? n / 256)%nat && (n / 256 <=? 223)%nat then bytes_of [239; 191; 189]
  else bytes_of [224 + n / 64 / 64; 128 + (n / 64) mod 64; 128 + n mod 64].

Definition unescape (c : ascii) : option string :=
  if Ascii.eqb c "034" then Some DQ
  else if Ascii.eqb c "\" then Some "\"
  else if Ascii.eqb c "/" then Some "/"
  else if Ascii.eqb c "b" then Some (bytes_of [8])
  else if Ascii.eqb c "f" then Some (bytes_of [12])
  else if Ascii.eqb c "n" then Some (bytes_of [10])
  else if Ascii.eqb c "r" then Some (bytes_of [13])
  else if Ascii.eqb c "t" then Some (bytes_of [9])
  else None.

(** The rest of a string literal after its opening quote. *)
Fixpoint parse_string (s : string) : option (string * string) :=
  match s with
  | EmptyString => None
  | String c r =>
      if Ascii.eqb c "034" then Some (EmptyString, r)
      else if Ascii.eqb c "\" then
        match r with
        | String "u" (String h1 (String h2 (String h3 (String h4 r')))) =>
            match hex_val h1, hex_val h2, hex_val h3, hex_val h4 with
            | Some a, Some b, Some c', Some d =>
                '(t, rest) ← parse_string r';
                Some (utf8 (((a * 16 + b) * 16 + c') * 16 + d) +:+ t, rest)
            | _, _, _, _ => None
            end
        | String e r' =>
            u ← unescape e;
            '(t, rest) ← parse_string r';
            Some (u +:+ t, rest)
        | EmptyString => None
        end
      else if (nat_of_ascii c <? 32)%nat then None
      else
        '(t, rest) ← parse_string r;
        Some (String c t, rest)
  end.

Fixpoint span_digits (s : string) : string * string :=
  match s with
  | String c r =>
      if is_digit c then let '(d, rest) := span_digits r in (String c d, rest)
      else (EmptyString, s)
  | EmptyString => (EmptyString, EmptyString)
  end.

(** A number literal: an optional minus sign, an integer part without a
    leading zero, an optional fraction and an optional exponent. *)
Definition parse_number (s : string) : option (string * string) :=
  let '(sign, s1) :=
    match s with
    | String "-" r => ("-", r)
    | _ => (EmptyString, s)
    end in
  '(int, s2) ←
    match s1 with
    | String "0" r => Some ("0", r)
    | String c _ =>
        if is_digit c then Some (span_digits s1) else None
    | EmptyString => None
    end;
  '(frac, s3) ←
    match s2 with
    | String "." r =>
        let '(d, rest) := span_digits r in
        if String.eqb d EmptyString then None else Some ("." +:+ d, rest)
    | _ => Some (EmptyString, s2)
    end;
  '(exp, s4) ←
    match s3 with
    | String e r =>
        if Ascii.eqb e "e" || Ascii.eqb e "E" then
          let '(sg, r1) :=
            match r with
            | String "+" r1 => ("+", r1)
            | String "-" r1 => ("-", r1)
            | _ => (EmptyString, r)
            end in
          let '(d, rest) := span_digits r1 in
          if String.eqb d EmptyString then None
          else Some (String e sg +:+ d, rest)
        else Some (EmptyString, s3)
    | EmptyString => Some (EmptyString, s3)
    end;
  Some (sign +:+ int +:+ frac +:+ exp, s4).

Definition literal (word : string) (v : Value) (s : string)
  : option (Value * string) :=
  if String.prefix word s then Some (v, drop_bytes (String.length word) s)
  else None.

Fixpoint parse_value (fuel : nat) (s : string) : option (Value * string) :=
  match fuel with
  | O => None
  | S fuel =>
      match skip_ws s with
      | String "{" r =>
          match skip_ws r with
          | String "}" r' => Some (VMap ∅, r')
          | r1 => parse_members fuel ∅ r1
          end
      | String "[" r =>
          match skip_ws r with
          | String "]" r' => Some (VArray [], r')
          | r1 => parse_elements fuel [] r1
          end
      | String "034" r =>
          '(t, rest) ← parse_string r; Some (VString t, rest)
      | String "t" _ as s1 => literal "true" (VBool true) s1
      | String "f" _ as s1 => literal "false" (VBool false) s1
      | String "n" _ as s1 => literal "null" VNil s1
      | s1 => '(n, rest) ← parse_number s1; Some (VNumber n, rest)
      end
  end
with parse_elements (fuel : nat) (acc : list Value) (s : string)
  : option (Value * string) :=
  match fuel with
  | O => None
  | S fuel =>
      '(v, r) ← parse_value fuel s;
      match skip_ws r with
      | String "," r' => parse_elements fuel (v :: acc) r'
      | String "]" r' => Some (VArray (rev (v :: acc)), r')
      | _ => None
      end
  end
with parse_members (fuel : nat) (acc : gmap string Value) (s : string)
  : option (Value * string) :=
  match fuel with
  | O => None
  | S fuel =>
      match skip_ws s with
      | String "034" r =>
          '(k, r1) ← parse_string r;
          match skip_ws r1 with
          | String ":" r2 =>
              '(v, r3) ← parse_value fuel r2;
              match skip_ws r3 with
              | String "," r4 => parse_members fuel (<[k := v]> acc) r4
              | String "}" r4 => Some (VMap (<[k := v]> acc), r4)
              | _ => None
              end
          | _ => None
          end
      | _ => None
      end
  end.

Definition fuel_for (s : string) : nat := 2 * String.length s + 2.

(** The first JSON value of the input, as a [json.Decoder] reads it. *)
Definition parse_first (s : string) : option Value :=
  fst <$> parse_value (fuel_for s) s.

(** The input as one JSON value, as [json.Unmarshal] requires. *)
Definition parse (s : string) : option Value :=
  '(v, rest) ← parse_value (fuel_for s) s;
  if String.eqb (skip_ws rest) EmptyString then Some v else None.

(** *** Encoding *)

Definition hex_digit (n : nat) : ascii :=
  ascii_of_nat (if (n <? 10)%nat then 48 + n else 87 + n).

Definition escape_byte (c : ascii) : string :=
  let n := nat_of_ascii c in
  if Ascii.eqb c "034" then "\" +:+ DQ
  else if Ascii.eqb c "\" then "\\"
  else if Ascii.eqb c "010" then "\n"
  else if Ascii.eqb c "013" then "\r"
  else if Ascii.eqb c "009" then "\t"
  else if (n <? 32)%nat || Ascii.eqb c "<" || Ascii.eqb c ">" || Ascii.eqb c "&"
  then "\u00" +:+ String (hex_digit (n / 16)) (String (hex_digit (n mod 16)) EmptyString)
  else String c EmptyString.

Fixpoint escape (s : string) : string :=
  match s with
  | EmptyString => EmptyString
  | String c r => escape_byte c +:+ escape r
  end.

Definition quote (s : string) : string := DQ +:+ escape s +:+ DQ.

Fixpoint insert_sorted (kv : string * string) (l : list (string * string))
  : list (string * string) :=
  match l with
  | [] => [kv]
  | kv' :: rest =>
      if String.leb kv.1 kv'.1 then kv :: l else kv' :: insert_sorted kv rest
  end.

Definition sort_by_key (l : list (string * string)) : list (string * string) :=
  foldr insert_sorted [] l.

Fixpoint encode (v : Value) : string :=
  match v with
  | VNil => "null"
  | VBool b => if b then "true" else "false"
  | VNumber n => n
  | VString s => quote s
  | VArray l => "[" +:+ String.concat "," (map encode l) +:+ "]"
  | VMap m =>
      "{" +:+ String.concat ","
                (map (fun kv : string * string => quote kv.1 +:+ ":" +:+ kv.2)
                     (sort_by_key (map_to_list (encode <$> m))))
      +:+ "}"
  end.

(** *** Decoding at the types of the program *)

Definition syntax_error : error := errors_New "invalid character in JSON input".
Definition type_error : error := errors_New "json: cannot unmarshal value into Go value".

Definition string_field (m : gmap string Value) (key : string) : option string :=
  match m !! key with
  | None | Some VNil => Some EmptyString
  | Some (VString s) => Some s
  | Some _ => None
  end.

Definition slice_field {A} (dec : Value -> option A) (m : gmap string Value)
    (key : string) : option (list A) :=
  match m !! key with
  | None | Some VNil => Some []
  | Some (VArray l) => mapM dec l
  | Some _ => None
  end.

Definition struct {A} (zero : A) (dec : gmap string Value -> option A)
    (v : Value) : option A :=
  match v with
  | VNil => Some zero
  | VMap m => dec m
  | _ => None
  end.

Definition dec_Part : Value -> option GeminiPart :=
  struct (mkGeminiPart EmptyString)
         (fun m => mkGeminiPart <$> string_field m "text").

Definition dec_Content : Value -> option GeminiContent :=
  struct (mkGeminiContent [] EmptyString)
         (fun m => parts ← slice_field dec_Part m "parts";
                   role ← string_field m "role";
                   Some (mkGeminiContent parts role)).

Definition dec_Candidate : Value -> option GeminiCandidate :=
  struct (mkGeminiCandidate (mkGeminiContent [] EmptyString) EmptyString)
         (fun m => content ← dec_Content (default VNil (m !! "content"));
                   reason ← string_field m "finishReason";
                   Some (mkGeminiCandidate content reason)).

Definition dec_Response : Value -> option GeminiResponse :=
  struct (mkGeminiResponse [])
         (fun m => mkGeminiResponse <$> slice_field dec_Candidate m "candidates").

Definition dec_map (v : Value) : option GoMap :=
  match v with
  | VNil => Some None
  | VMap m => Some (Some m)
  | _ => None
  end.

Definition dec_Request : Value -> option ActionRequest :=
  struct (mkActionRequest EmptyString None)
         (fun m => action ← string_field m "action";
                   params ← dec_map (default VNil (m !! "params"));
                   Some (mkActionRequest action params)).

Definition decode_with {A} (p : string -> option Value) (dec : Value -> option A)
    (data : bytes) : result A :=
  match p data with
  | None => Err syntax_error
  | Some v =>
      match dec v with
      | Some a => Ok a
      | None => Err type_error
      end
  end.

Definition json : JSON := {|
  json_Marshal := fun v => Ok (encode v);
  json_Unmarshal_map := decode_with parse dec_map;
  json_Unmarshal_GeminiResponse := decode_with parse dec_Response;
  json_Decode_ActionRequest := decode_with parse_first dec_Request |}.

End Codec.

(** Hosts that answer every call from a fixed script; the state counts the
    calls made so far. *)
Module Scripted.

Record Scenario := mkScenario {
  on_exec : string -> list string -> bytes * option error;
  on_post : option error;
  on_read : result bytes;
  on_tempfile : result string;
  on_write : option error;
  on_readfile : result bytes;
  on_db : option error }.

Definition host (s : Scenario) : Host nat := {|
  exec_CombinedOutput := fun name args n => (on_exec s name args, S n);
  http_Post := fun _ _ _ n => (on_post s, S n);
  ioutil_ReadAll := fun n => (on_read s, S n);
  Body_Close := S;
  ioutil_TempFile := fun _ _ n => (on_tempfile s, S n);
  File_Write := fun _ _ n => (on_write s, S n);
  File_Close := fun _ => S;
  os_Remove := fun _ => S;
  ioutil_ReadFile := fun _ n => (on_readfile s, S n);
  db_Exec := fun _ _ _ n => (on_db s, S n) |}.

(** [exec.Command] on a machine where only [python] is installed and the
    script prints its result. *)
Definition only_python (stdout : bytes) (name : string) (args : list string)
  : bytes * option error :=
  if String.eqb name "python" then (stdout, None)
  else (EmptyString,
        Some (mkError ("exec: " +:+ name +:+ ": executable file not found in $PATH")
                      true)).

(** [exec.Command] on a machine where [python3] runs and the script ends
    with a non-zero status. *)
Definition script_fails (output : bytes) (name : string) (args : list string)
  : bytes * option error :=
  (output, Some (mkError "exit status 1" false)).

(** [exec.Command] on a machine where [python3] runs the script with
    success. *)
Definition script_prints (output : bytes) (name : string) (args : list string)
  : bytes * option error :=
  (output, None).

Definition config : Config :=
  mkConfig 8080%Z "KEY" "https://generativelanguage.googleapis.com/generate".

Definition get_time : Action :=
  mkAction "get_time" "Returns the current time" "python/action_runner.py" "get_time".

(** [{"result": 42}] *)
Definition result_42 : string := "{" +:+ DQ +:+ "result" +:+ DQ +:+ ": 42}".

(** An envelope with one candidate whose only part is [text]. *)
Definition envelope (text : string) : GeminiResponse :=
  mkGeminiResponse
    [mkGeminiCandidate (mkGeminiContent [mkGeminiPart text] "model") "STOP"].

Definition envelope_body (text : string) : bytes :=
  Codec.encode (GeminiResponse_Value (envelope text)).

(** The body of a request [{"action": action, "params": {}}]. *)
Definition request_body (action : string) : bytes :=
  Codec.encode (ActionRequest_Value (mkActionRequest action (Some ∅))).

Definition post (action : string) : Request :=
  mkRequest "POST" (request_body action).

End Scripted.

(** ** What a trace shows *)

(** The interpreter runs of a trace: binary, arguments, combined output and
    error. *)
Definition execs (t : list Event)
  : list (string * list string * bytes * option error) :=
  omap (fun e => match e with
                 | EvExec name args out err => Some (name, args, out, err)
                 | _ => None
                 end) t.

(** The calls of the remote generation service: URL, request body and the
    error of the call. *)
Definition remote_calls (t : list Event) : list (string * bytes * option error) :=
  omap (fun e => match e with
                 | EvHttpPost url _ body err => Some (url, body, err)
                 | _ => None
                 end) t.

(** What [ioutil.ReadAll] returned for the bodies of the remote service. *)
Definition bodies_read (t : list Event) : list (result bytes) :=
  omap (fun e => match e with EvReadAll res => Some res | _ => None end) t.

(** What [ioutil.TempFile] returned. *)
Definition scratch_files (t : list Event) : list (result string) :=
  omap (fun e => match e with EvTempFile _ _ res => Some res | _ => None end) t.

(** What the writes to scratch files returned. *)
Definition scratch_writes (t : list Event) : list (option error) :=
  omap (fun e => match e with EvFileWrite _ _ err => Some err | _ => None end) t.

(** What [ioutil.ReadFile] returned. *)
Definition files_read (t : list Event) : list (string * result bytes) :=
  omap (fun e => match e with EvReadFile name res => Some (name, res) | _ => None end) t.

(** The lines written to the log. *)
Definition log_lines (t : list Event) : list string :=
  omap (fun e => match e with EvLog line => Some line | _ => None end) t.

(** The audit records attempted: action, request, response and the error of
    the write. *)
Definition audit_records (t : list Event)
  : list (string * string * string * option error) :=
  omap (fun e => match e with
                 | EvDbExec action request response err =>
                     Some (action, request, response, err)
                 | _ => None
                 end) t.

(** What the HTTP caller receives: the events on the [http.ResponseWriter]. *)
Definition is_response_event (e : Event) : bool :=
  match e with
  | EvWriteHeader _ | EvHeaderSet _ _ | EvWrite _ => true
  | _ => false
  end.

Definition response (t : list Event) : list Event :=
  List.filter is_response_event t.

(** The bodies written by [jsonResponse]. *)
Definition bodies (t : list Event) : list bytes :=
  omap (fun e => match e with EvWrite b => Some b | _ => None end) t.

(** The result of the last interpreter run of a trace. *)
Definition last_exec (t : list Event) : option (bytes * option error) :=
  (fun '(_, _, out, err) => (out, err)) <$> last (execs t).

(** [runPython] seen from its trace: the attempts follow the candidates in
    order, each attempt but the last met [not_found], the last one either did
    not or was the last candidate, and its result is [final]. *)
Fixpoint fallback_chain (candidates : list string) (args : list string)
    (attempts : list (string * list string * bytes * option error))
    (final : bytes * option error) : Prop :=
  match candidates, attempts with
  | c :: cs, (name, args', out, err) :: rest =>
      name = c /\ args' = args /\
      match rest with
      | [] => final = (out, err) /\ (not_found out err = false \/ cs = [])
      | _ :: _ => not_found out err = true /\ fallback_chain cs args rest final
      end
  | _, _ => False
  end.

(** The action string carries a directive: it is [code], a space and [rest]. *)
Definition directive (code rest input : string) : Prop :=
  (code = "py" \/ code = "sh") /\ input = code +:+ " " +:+ rest.

(** The envelope [g] carries generated code. *)
Definition has_content (g : GeminiResponse) : Prop :=
  exists c cs p ps, Candidates g = c :: cs /\ Parts (Content c) = p :: ps.

(** The same host with another database. *)
Definition with_db {W} (H : Host W)
    (db : string -> string -> string -> W -> option error * W) : Host W :=
  {| exec_CombinedOutput := exec_CombinedOutput H;
     http_Post := http_Post H;
     ioutil_ReadAll := ioutil_ReadAll H;
     Body_Close := Body_Close H;
     ioutil_TempFile := ioutil_TempFile H;
     File_Write := File_Write H;
     File_Close := File_Close H;
     os_Remove := os_Remove H;
     ioutil_ReadFile := ioutil_ReadFile H;
     db_Exec := db |}.

(** The first registered action with the given name, as the loop over
    [actions] finds it. *)
Definition lookup_action (actions : list Action) (name : string) : option Action :=
  List.find (fun act => String.eqb (Name act) name) actions.

(** A request that reaches the pipeline: a POST whose body decodes to [req]. *)
Definition handled (J : JSON) (r : Request) (req : ActionRequest) : Prop :=
  Method r = http_MethodPost /\ json_Decode_ActionRequest J (Body r) = Ok req.

(** ** Error kinds, as a trace shows them *)

(** The envelope [g] was received and decoded. *)
Definition envelope_received (J : JSON) (t : list Event) (g : GeminiResponse) : Prop :=
  exists body,
    In (Ok body) (bodies_read t) /\ json_Unmarshal_GeminiResponse J body = Ok g.

(** The envelope has no candidate, or its first candidate has no part. *)
Definition empty_envelope (g : GeminiResponse) : Prop :=
  Candidates g = [] \/
  exists c cs, Candidates g = c :: cs /\ Parts (Content c) = [].

Definition remote_call_failed (t : list Event) : Prop :=
  exists url body e, In (url, body, Some e) (remote_calls t).

Definition remote_read_failed (t : list Event) : Prop :=
  exists e, In (Err e) (bodies_read t).

Definition remote_decode_failed (J : JSON) (t : list Event) (body : bytes) : Prop :=
  In (Ok body) (bodies_read t) /\
  exists e, json_Unmarshal_GeminiResponse J body = Err e.

Definition no_content_generated (J : JSON) (t : list Event) (body : bytes) : Prop :=
  In (Ok body) (bodies_read t) /\
  exists g, json_Unmarshal_GeminiResponse J body = Ok g /\ empty_envelope g.

Definition scratch_file_failed (t : list Event) : Prop :=
  exists e, In (Err e) (scratch_files t).

Definition scratch_write_failed (t : list Event) : Prop :=
  exists e, In (Some e) (scratch_writes t).

(** The last interpreter run ended with an error: no interpreter was found,
    or the script failed. *)
Definition execution_failed (t : list Event) : Prop :=
  exists out e, last_exec t = Some (out, Some e).

(** The script ran and [extractValidJSON] found nothing in its output. *)
Definition extraction_failed (J : JSON) (t : list Event) (out : bytes) : Prop :=
  last_exec t = Some (out, None) /\
  (exists e, json_Unmarshal_map J out = Err e) /\
  (exists e, Directives.extractValidJSON J out = Returned (Err e)).

(** The script ran and its output does not decode as a whole. *)
Definition decoding_failed (J : JSON) (t : list Event) (out : bytes) : Prop :=
  last_exec t = Some (out, None) /\
  exists e, json_Unmarshal_map J out = Err e.

(** The fallback result: the decoded envelope converted to a map. *)
Definition envelope_fallback (J : JSON) (t : list Event) (resp : GoMap) : Prop :=
  exists g,
    envelope_received J t g /\ has_content g /\ resp = geminiRespToMap J g.

(** ** Lines of an output, as [extractValidJSON] reads them *)



(** ** Scenarios of the examples *)

Module Example.
Import Scripted.

(** A progress line, then [{"result": 42}] on a line of its own. *)
Definition noisy_output : string :=
  "progress line" +:+ LF +:+ result_42 +:+ LF.

Definition traceback : string :=
  "Traceback (most recent call last):" +:+ LF +:+
  "ZeroDivisionError: division by zero" +:+ LF.

(** The service answers with code, the interpreter runs it and the script
    fails. *)
Definition generated_script_fails : Scenario := {|
  on_exec := script_fails traceback;
  on_post := None;
  on_read := Ok (envelope_body "print(1/0)");
  on_tempfile := Ok "/tmp/hartley_generated_1.py";
  on_write := None;
  on_readfile := Ok "Answer with Python code: ";
  on_db := None |}.

(** The service answers with code and the script prints a progress line
    before its result. *)
Definition generated_script_prints : Scenario := {|
  on_exec := script_prints noisy_output;
  on_post := None;
  on_read := Ok (envelope_body "print(42)");
  on_tempfile := Ok "/tmp/hartley_generated_1.py";
  on_write := None;
  on_readfile := Ok "Answer with Python code: ";
  on_db := None |}.

(** The service answers with code and the script prints text that holds no
    JSON object. *)
Definition generated_script_prints_text : Scenario := {|
  on_exec := script_prints ("forty-two" +:+ LF);
  on_post := None;
  on_read := Ok (envelope_body "print('forty-two')");
  on_tempfile := Ok "/tmp/hartley_generated_1.py";
  on_write := None;
  on_readfile := Ok "Answer with Python code: ";
  on_db := None |}.

(** The service answers with an envelope without candidates. *)
Definition nothing_generated : Scenario := {|
  on_exec := script_prints EmptyString;
  on_post := None;
  on_read := Ok (Codec.encode (GeminiResponse_Value (mkGeminiResponse [])));
  on_tempfile := Ok "/tmp/hartley_generated_1.py";
  on_write := None;
  on_readfile := Ok "Answer with Python code: ";
  on_db := None |}.

(** A registered script fails; the database is down. *)
Definition registered_script_fails : Scenario := {|
  on_exec := script_fails traceback;
  on_post := Some (errors_New "dial tcp: connection refused");
  on_read := Err (errors_New "unexpected EOF");
  on_tempfile := Err (errors_New "no space left on device");
  on_write := None;
  on_readfile := Ok "Answer with Python code: ";
  on_db := Some (errors_New "database is locked") |}.

(** Only [python] is installed and the registered script prints its
    result. *)
Definition registered_script_prints : Scenario := {|
  on_exec := only_python result_42;
  on_post := Some (errors_New "dial tcp: connection refused");
  on_read := Err (errors_New "unexpected EOF");
  on_tempfile := Err (errors_New "no space left on device");
  on_write := None;
  on_readfile := Ok "Answer with Python code: ";
  on_db := None |}.

Definition ask : ActionRequest := mkActionRequest "what is six times seven" (Some ∅).
Definition ask_with (params : GoMap) : ActionRequest :=
  mkActionRequest "what is six times seven" params.
Definition get_time_request : ActionRequest := mkActionRequest "get_time" (Some ∅).
Definition py_request : ActionRequest := mkActionRequest "py  six times seven " (Some ∅).

End Example.


(** What [jsonResponse] leaves on the [http.ResponseWriter] for [data]. *)
Definition written (J : JSON) (data : Value) : list Event :=
  EvHeaderSet "Content-Type" "application/json" ::
  match json_Marshal J data with
  | Ok b => [EvWrite (b +:+ LF)]
  | Err _ => []
  end.

Module Runs.
Import Scripted Example.

(** A free-form question whose generated script fails. *)
Definition fallback_run :=
  Directives.resolve Codec.json (host generated_script_fails) config [get_time] ask 0.

Definition fallback_run_main :=
  HartleyMain.resolve Codec.json (host generated_script_fails) config [get_time] ask 0.


(** A request with the method GET. *)
Definition get_run :=
  Directives.actionHandler Codec.json (host registered_script_prints) config
    [get_time] (mkRequest "GET" EmptyString) 0.


Definition registered_failure_handler_run :=
  Directives.actionHandler Codec.json (host registered_script_fails) config
    [get_time] (post "get_time") 0.

(** The registered action [get_time] on a machine with [python] only. *)
Definition registered_run :=
  Directives.actionHandler Codec.json (host registered_script_prints) config
    [get_time] (post "get_time") 0.

(** A free-form question answered by an envelope without candidates. *)
Definition empty_run :=
  Directives.resolve Codec.json (host nothing_generated) config [get_time] ask 0.

(** The same question sent with two different [params]. *)
Definition some_params : GoMap := Some {[ "verbose" := VBool true ]}.

Definition question_run (params : GoMap) :=
  Directives.actionHandler Codec.json (host generated_script_prints) config
    [get_time]
    (mkRequest "POST" (Codec.encode (ActionRequest_Value (ask_with params)))) 0.

End Runs.

(** ** More of what a trace shows *)

(** The scratch files created, and those removed. *)
Definition scratch_created (t : list Event) : list string :=
  omap (fun e => match e with EvTempFile _ _ (Ok name) => Some name | _ => None end) t.

Definition scratch_removed (t : list Event) : list string :=
  omap (fun e => match e with EvRemove name => Some name | _ => None end) t.

(** The response bodies of the remote service opened, and those closed. *)
Definition bodies_opened (t : list Event) : list unit :=
  omap (fun e => match e with EvHttpPost _ _ _ None => Some tt | _ => None end) t.

Definition bodies_closed (t : list Event) : list unit :=
  omap (fun e => match e with EvBodyClose => Some tt | _ => None end) t.

(** The events of the deferred calls of a handler whose pipeline left the
    trace [t]: the scratch file is removed, then the body is closed. *)
Definition cleanup (t : list Event) : list Event :=
  map EvRemove (scratch_created t) ++ map (fun _ => EvBodyClose) (bodies_opened t).

(** The events of [logToDB] for a request and its result, when the write to
    the database returns [err]. *)
Definition recorded (J : JSON) (req : ActionRequest) (resp : GoMap)
    (err : option error) : list Event :=
  EvDbExec (req_Action req) (marshal_or_empty J (ActionRequest_Value req))
           (marshal_or_empty J (map_Value resp)) err ::
  match err with
  | Some e => [EvLog ("Error logging to database: " +:+ Error e)]
  | None => []
  end.

(** The pipeline part of a trace: no audit record and nothing written to the
    caller. *)
Definition quiet (t : list Event) : Prop :=
  audit_records t = [] /\ response t = [].

(** All interpreter runs got the arguments [args]. *)
Definition runs_only (args : list string) (t : list Event) : Prop :=
  Forall (fun '(_, args', _, _) => args' = args) (execs t).

(** The writes to scratch files: name, data and error. *)
Definition scratch_written (t : list Event) : list (string * bytes * option error) :=
  omap (fun e => match e with
                 | EvFileWrite name data err => Some (name, data, err)
                 | _ => None
                 end) t.


(** The text of the first part of the first candidate of an envelope. *)
Definition generated_code (g : GeminiResponse) : option string :=
  match Candidates g with
  | c :: _ =>
      match Parts (Content c) with
      | p :: _ => Some (Text p)
      | [] => None
      end
  | [] => None
  end.

(** What the deferred calls [ds] of a pipeline that left the trace [t] do,
    whatever the state. *)
Definition deferred_cleanup {W} (ds : list (M W unit)) (t : list Event) : Prop :=
  forall w, exists w', HartleyMain.run_deferred ds w = (Returned tt, w', cleanup t).

(** The trace of a request that the handler rejects before the pipeline. *)
Definition rejected (J : JSON) (r : Request) (t : list Event) : Prop :=
  (Method r <> http_MethodPost /\
   t = EvWriteHeader http_StatusMethodNotAllowed ::
       written J (VMap {[ "error" := VString "Method not allowed" ]}))
  \/ (Method r = http_MethodPost /\
      (exists e, json_Decode_ActionRequest J (Body r) = Err e) /\
      t = EvWriteHeader http_StatusBadRequest ::
          written J (VMap {[ "error" := VString "Invalid JSON" ]})).

(** The trace of a handled request after the pipeline left [t1] and the
    result [resp]: the audit record, then the response. *)
Definition answered (J : JSON) (req : ActionRequest) (resp : GoMap)
    (err : option error) (t1 : list Event) : list Event :=
  t1 ++ recorded J req resp err ++ written J (map_Value resp).

(** ** More scenarios *)

Module Cases.
Import Scripted Example.

(** The registered script prints its result; [systemPrompt.txt] is
    missing. *)
Definition prompt_missing : Scenario := {|
  on_exec := script_prints result_42;
  on_post := None;
  on_read := Ok (envelope_body "print(42)");
  on_tempfile := Ok "/tmp/hartley_generated_1.py";
  on_write := None;
  on_readfile := Err (errors_New "open systemPrompt.txt: no such file or directory");
  on_db := None |}.

Definition prompt_missing_run :=
  HartleyMain.actionHandler Codec.json (host prompt_missing) config [get_time]
    (post "get_time") 0.

(** The registered script prints a progress line before its result. *)
Definition registered_script_prints_progress : Scenario := {|
  on_exec := script_prints noisy_output;
  on_post := Some (errors_New "dial tcp: connection refused");
  on_read := Err (errors_New "unexpected EOF");
  on_tempfile := Err (errors_New "no space left on device");
  on_write := None;
  on_readfile := Ok "Answer with Python code: ";
  on_db := None |}.

Definition progress_run :=
  Directives.resolve Codec.json (host registered_script_prints_progress) config
    [get_time] get_time_request 0.

Definition progress_run_marker :=
  Marker.resolve Codec.json (host registered_script_prints_progress) config
    [get_time] get_time_request 0.

(** A free-form question whose generated script prints a progress line
    before its result. *)
Definition scanned_run :=
  Directives.resolve Codec.json (host generated_script_prints) config [get_time] ask 0.

(** A [py] directive. *)
Definition py_run :=
  Directives.resolve Codec.json (host generated_script_prints) config [get_time]
    py_request 0.

(** A shell directive on a machine with [python] only. *)
Definition sh_request : ActionRequest := mkActionRequest "sh ls -la " (Some ∅).

Definition sh_run :=
  Directives.resolve Codec.json (host registered_script_prints) config [get_time]
    sh_request 0.

(** The registered action [get_time] in the first program, on a machine with
    [python] only. *)
Definition first_program_run :=
  Plain.resolve Codec.json (host registered_script_prints) config [get_time]
    get_time_request 0.

(** The registered action [get_time] in [hartley-main.go] and in the server
    with directives, on a machine with [python] only. *)
Definition registered_resolve_run :=
  Directives.resolve Codec.json (host registered_script_prints) config [get_time]
    get_time_request 0.

Definition registered_resolve_run_main :=
  HartleyMain.resolve Codec.json (host registered_script_prints) config [get_time]
    get_time_request 0.

(** The object [{"answer": 42}], which lacks the marker. *)
Definition answer_42 : string := "{" +:+ DQ +:+ "answer" +:+ DQ +:+ ": 42}".

End Cases.

(** * Properties *)

Lemma substring_all (s : string) : String.substring 0 (String.length s) s = s.
Proof. induction s as [|c s IH]; simpl; [reflexivity | by rewrite IH]. Qed.

Lemma drop_bytes_3 (a b c : ascii) (rest : string) :
  drop_bytes 3 (String a (String b (String c rest))) = rest.
Proof. unfold drop_bytes. simpl. rewrite Nat.sub_0_r. apply substring_all. Qed.

Lemma directive_conditions (input : string) :
  (3 <= String.length input /\ String.get 2 input = Some " "%char /\
   (String.substring 0 2 input = "py" \/ String.substring 0 2 input = "sh"))
  <-> exists code rest, directive code rest input.
Proof.
  split.
  - intros (Hlen & Hget & Hcode).
    destruct input as [|a [|b [|c rest]]]; simpl in Hlen; try lia.
    simpl in Hget. injection Hget as ->.
    simpl in Hcode.
    destruct Hcode as [Hc | Hc]; injection Hc as -> ->.
    + exists "py", rest. split; [by left | reflexivity].
    + exists "sh", rest. split; [by right | reflexivity].
  - intros (code & rest & [Hc | Hc] & ->); subst code; simpl;
      (split; [lia | split; [reflexivity | auto]]).
Qed.

Lemma parsePrefix_directive (code rest input : string) :
  directive code rest input ->
  Directives.parsePrefix input = (code, strings_TrimSpace rest).
Proof.
  intros [[-> | ->] ->]; unfold Directives.parsePrefix;
    cbv [String.append]; rewrite drop_bytes_3; cbn -[strings_TrimSpace];
    by case_bool_decide.
Qed.

Lemma parsePrefix_plain (input : string) :
  ~ (exists code rest, directive code rest input) ->
  Directives.parsePrefix input = ("", input).
Proof.
  intros Hno. unfold Directives.parsePrefix.
  destruct (3 <=? String.length input)%nat eqn:Hlen; simpl; [|reflexivity].
  case_bool_decide as Hget; simpl; [|reflexivity].
  destruct (String.eqb (String.substring 0 2 input) "py") eqn:Hpy; simpl.
  { exfalso. apply Hno, directive_conditions.
    apply Nat.leb_le in Hlen. apply String.eqb_eq in Hpy. auto. }
  destruct (String.eqb (String.substring 0 2 input) "sh") eqn:Hsh; simpl.
  { exfalso. apply Hno, directive_conditions.
    apply Nat.leb_le in Hlen. apply String.eqb_eq in Hsh. auto. }
  reflexivity.
Qed.

Section Extract.
Context (J : JSON).



Lemma scan_lines_returns (lines : list string) (n : nat) :
  n <= length lines ->
  exists r, Directives.scan_lines J lines n = Returned r.
Proof.
  induction n as [|n IH]; intros Hn; simpl; [eauto|].
  destruct (lines !! n) as [l'|] eqn:Hn'.
  2:{ apply lookup_ge_None in Hn'. lia. }
  destruct (String.eqb _ _); [apply IH; lia|].
  destruct (json_Unmarshal_map J _); [eauto | apply IH; lia].
Qed.
End Extract.







Lemma extractValidJSON_returns (J : JSON) (output : bytes) :
  exists r, Directives.extractValidJSON J output = Returned r.
Proof.
  unfold Directives.extractValidJSON.
  destruct (json_Unmarshal_map J output); [eauto|].
  by apply scan_lines_returns.
Qed.

Section Registry.
Context {W : Type} (J : JSON) (H : Host W).

Lemma rangeActions_lookup (actions : list Action) (req : ActionRequest) :
  rangeActions J H actions req =
    match lookup_action actions (req_Action req) with
    | Some act => rangeActions J H [act] req
    | None => mret (false, None)
    end.
Proof.
  unfold lookup_action.
  induction actions as [|act rest IH]; [reflexivity|].
  cbn [rangeActions List.find].
  destruct (String.eqb (Name act) (req_Action req)) eqn:E; [|exact IH].
  cbn [rangeActions]. by rewrite E.
Qed.

Lemma lookup_action_name (actions : list Action) (name : string) (act : Action) :
  lookup_action actions name = Some act -> String.eqb (Name act) name = true.
Proof. intros Hf. by apply List.find_some in Hf as [_ ?]. Qed.
End Registry.

(** *** Symbolic execution of a run [Hrun : f w = (o, w', t)] *)

(** The innermost scrutinee is split first. *)
Ltac step_run Hrun :=
  match type of Hrun with
  | context [Directives.extractValidJSON ?J ?o] =>
      let r := fresh "extracted" in
      let E := fresh "Hextract" in
      destruct (extractValidJSON_returns J o) as [r E];
      rewrite E in Hrun; cbv beta iota in Hrun
  | context [match ?x with _ => _ end] =>
      lazymatch x with
      | context [match _ with _ => _ end] => fail
      | _ => destruct x eqn:?; cbv beta iota in Hrun
      end
  end.

(** A length test and an indexing that contradict each other. *)
Ltac absurd_index :=
  match goal with
  | Hl : Nat.eqb (length ?l) 0 = false, Hi : ?l !! 0 = None |- _ =>
      exfalso; destruct l; [discriminate Hl | discriminate Hi]
  end.

Ltac unfold_run Hrun :=
  cbv [mbind mret M_bind M_ret bind ret defer emit log_Printf log_Fatalf os_Exit
       panic index exec_Command httpPost readAll bodyClose tempFile fileWrite
       fileClose osRemove readFile dbExec Directives.call runPython no_content
       first_text jsonResponse logToDB HartleyMain.run_deferred negb] in Hrun.

Ltac run Hrun :=
  unfold_run Hrun; cbv beta iota zeta in Hrun;
  repeat step_run Hrun; try absurd_index;
  try (injection Hrun as <- <- <-).

(** [Directives.resolve] is split into its four routes first. *)
Ltac run_directives Hrun :=
  unfold Directives.resolve in Hrun;
  let Hparse := fresh "Hparse" in
  let Hlookup := fresh "Hlookup" in
  destruct (Directives.parsePrefix _) as [prefix payload] eqn:Hparse in Hrun;
  destruct (String.eqb prefix "py");
  [ unfold Directives.handlePythonCommand in Hrun
  | destruct (String.eqb prefix "sh");
    [ unfold Directives.handleShellCommand in Hrun
    | rewrite rangeActions_lookup in Hrun;
      destruct (lookup_action _ _) as [act|] eqn:Hlookup in Hrun;
      [ cbn [rangeActions] in Hrun;
        rewrite (lookup_action_name _ _ _ Hlookup) in Hrun
      | unfold Directives.handleConversational in Hrun ] ] ];
  run Hrun.

(** [HartleyMain.resolve] is split at the registry first. *)
Ltac run_main Hrun :=
  unfold HartleyMain.resolve in Hrun;
  let Hlookup := fresh "Hlookup" in
  rewrite rangeActions_lookup in Hrun;
  destruct (lookup_action _ _) as [act|] eqn:Hlookup in Hrun;
  [ cbn [rangeActions] in Hrun;
    rewrite (lookup_action_name _ _ _ Hlookup) in Hrun
  | unfold HartleyMain.generate in Hrun ];
  run Hrun.

Ltac trace_simpl :=
  unfold envelope_fallback, envelope_received, no_content_generated,
    remote_decode_failed, remote_read_failed, remote_call_failed,
    scratch_file_failed, scratch_write_failed, execution_failed,
    extraction_failed, decoding_failed, last_exec, execs, remote_calls,
    bodies_read, scratch_files, scratch_writes, files_read, audit_records,
    bodies, log_lines, response, has_content, empty_envelope;
  simpl.

Ltac head_of t :=
  lazymatch t with
  | ?f _ => head_of f
  | _ => t
  end.

(** Equalities between constructor forms are refuted or split. *)
Ltac constructor_eq H :=
  lazymatch type of H with
  | ?x = ?y =>
      let hx := head_of x in
      let hy := head_of y in
      is_constructor hx; is_constructor hy;
      first [ discriminate H | injection H; clear H; intros; subst ]
  end.

Ltac crush :=
  repeat match goal with
    | H : ex _ |- _ => destruct H
    | H : _ /\ _ |- _ => destruct H
    | H : _ \/ _ |- _ => destruct H
    | H : False |- _ => destruct H
    | H : _ = _ |- _ => constructor_eq H
    | H1 : ?x = _, H2 : ?x = _ |- _ => rewrite H1 in H2
    | Hc : ?l = ?v, Hl : context [?l] |- _ =>
        lazymatch v with [] => idtac | _ :: _ => idtac end;
        rewrite Hc in Hl; cbn in Hl
    end;
  try done; try congruence; eauto.


Section Pipeline.
Context {W : Type} (J : JSON) (H : Host W) (config : Config) (actions : list Action).

(** C3. Once an envelope with content has been decoded, a failure of a later
    stage (scratch file creation or write, interpreter run, extraction of
    the result) makes the result [geminiRespToMap] of that envelope, in the
    server with directives and in [hartley-main.go] (where the last stage is
    the decoding of the whole output).  With a codec that decodes what it
    encoded, that map is the candidates of the envelope under the key
    [candidates]. *)
Theorem fallback_is_envelope (req : ActionRequest) (w : W) (g : GeminiResponse) :
  (forall o w' t,
      Directives.resolve J H config actions req w = (o, w', t) ->
      envelope_received J t g -> has_content g ->
      scratch_file_failed t \/ scratch_write_failed t \/
      execution_failed t \/ (exists out, extraction_failed J t out) ->
      o = Returned (geminiRespToMap J g))
  /\ (forall o w' t,
      HartleyMain.resolve J H config actions req w = (o, w', t) ->
      envelope_received J t g -> has_content g ->
      scratch_file_failed t \/ scratch_write_failed t \/
      execution_failed t \/ (exists out, decoding_failed J t out) ->
      exists deferred, o = Returned (geminiRespToMap J g, deferred))
  /\ (forall data,
      json_Marshal J (GeminiResponse_Value g) = Ok data ->
      json_Unmarshal_map J data =
        Ok (Some {[ "candidates" :=
                      VArray (map GeminiCandidate_Value (Candidates g)) ]}) ->
      geminiRespToMap J g =
        Some {[ "candidates" :=
                  VArray (map GeminiCandidate_Value (Candidates g)) ]}).
Proof.
  split; [|split]; [intros o w' t Hrun..|].
  - run_directives Hrun.
    all: trace_simpl; intros Henv Hcontent Hfail; crush.
  - run_main Hrun.
    all: trace_simpl; intros Henv Hcontent Hfail; crush.
  - intros data Hmarshal Hunmarshal. unfold geminiRespToMap.
    by rewrite Hmarshal, Hunmarshal.
Qed.

(** C9. No run of the pipeline panics (the only indexings are those of
    [Candidates[0]] and [Parts[0]]), and an envelope that decodes with no
    candidate, or with a first candidate without parts, gives the result
    [{"error": "No content generated by Gemini", "raw_response": body}]. *)
Theorem empty_envelope_is_no_content (req : ActionRequest) (w : W) :
  (forall o w' t,
      Directives.resolve J H config actions req w = (o, w', t) ->
      (forall msg, o <> Panicked msg) /\
      (forall body, no_content_generated J t body ->
         o = Returned (error_map_with "No content generated by Gemini"
                                      "raw_response" body)))
  /\ (forall o w' t,
      HartleyMain.resolve J H config actions req w = (o, w', t) ->
      (forall msg, o <> Panicked msg) /\
      (forall body, no_content_generated J t body ->
         exists deferred,
           o = Returned (error_map_with "No content generated by Gemini"
                                        "raw_response" body, deferred))).
Proof.
  split; intros o w' t Hrun.
  - run_directives Hrun.
    all: (split; [discriminate|]); trace_simpl; intros body Hempty; crush.
  - run_main Hrun.
    all: (split; [discriminate|]); trace_simpl; intros body Hempty; crush.
Qed.
End Pipeline.

Lemma has_content_intro (g : GeminiResponse) (c : GeminiCandidate) (p : GeminiPart) :
  Candidates g !! 0 = Some c -> Parts (Content c) !! 0 = Some p -> has_content g.
Proof.
  intros Hc Hp. unfold has_content.
  destruct (Candidates g) as [|c' cs]; [discriminate|].
  injection Hc as ->.
  destruct (Parts (Content c)) as [|p' ps] eqn:E; [discriminate|].
  exists c, cs, p', ps. by rewrite E.
Qed.

Ltac solve_fallback :=
  eexists; split;
  [ eexists; split; [left; reflexivity | eassumption]
  | split; [eapply has_content_intro; eassumption | reflexivity] ].


Section Errors.
Context {W : Type} (J : JSON) (H : Host W) (config : Config) (actions : list Action).

Lemma Directives_resolve_returns (req : ActionRequest) (w : W) :
  exists resp w' t,
    Directives.resolve J H config actions req w = (Returned resp, w', t) /\
    audit_records t = [] /\ response t = [].
Proof.
  destruct (Directives.resolve J H config actions req w) as [[o w'] t] eqn:Hrun.
  run_directives Hrun.
  all: eexists _, _, _; split; [reflexivity|]; trace_simpl; auto.
Qed.

Lemma HartleyMain_resolve_outcome (req : ActionRequest) (w : W) o w' t :
  HartleyMain.resolve J H config actions req w = (o, w', t) ->
  audit_records t = [] /\ response t = [] /\
  ((exists resp deferred,
       o = Returned (resp, deferred) /\
       (deferred = [] \/ deferred = [bodyClose H] \/
        exists name, deferred = [osRemove H name; bodyClose H]))
   \/ (o = Exited 1 /\ exists e, In ("systemPrompt.txt", Err e) (files_read t))).
Proof.
  intros Hrun. run_main Hrun.
  all: trace_simpl; split; [reflexivity|]; split; [reflexivity|].
  all: first [ left; eexists _, _; split; [reflexivity|]; unfold bodyClose, osRemove; eauto
             | right; eauto ].
Qed.

(** In [hartley-main.go] a request that finds [systemPrompt.txt] unreadable
    ends the process. *)
Lemma prompt_unreadable_is_fatal (req : ActionRequest) (w : W) o w' t e :
  HartleyMain.resolve J H config actions req w = (o, w', t) ->
  In ("systemPrompt.txt", Err e) (files_read t) ->
  o = Exited 1.
Proof.
  intros Hrun. run_main Hrun.
  all: trace_simpl; intros Hin; crush.
Qed.

End Errors.

Lemma lookup_action_unregistered (actions : list Action) (name : string) :
  (forall act, In act actions -> Name act <> name) ->
  lookup_action actions name = None.
Proof.
  intros Hno. unfold lookup_action.
  destruct (List.find _ actions) as [act|] eqn:Hfind; [|reflexivity].
  apply List.find_some in Hfind as [Hin Heq].
  apply String.eqb_eq in Heq. by destruct (Hno act Hin).
Qed.

Ltac solve_chain :=
  eexists; simpl;
  repeat (split; [first [reflexivity | eassumption]|]);
  first [ reflexivity | auto ].

Section Handler.
Context {W : Type} (J : JSON) (H : Host W) (config : Config) (actions : list Action).

(** C5. For a request whose action is the name of a registered action (and,
    in the server with directives, carries no directive prefix) and whose
    params serialize to [paramsJSON], every interpreter run of the handler
    has the arguments [Script], [Function], [paramsJSON] of the first action
    of that name, starting with python3, and the remote service is never
    called. *)
Theorem registered_action_runs_script (r : Request) (req : ActionRequest)
    (act : Action) (paramsJSON : string) (w : W) :
  handled J r req ->
  lookup_action actions (req_Action req) = Some act ->
  json_Marshal J (map_Value (req_Params req)) = Ok paramsJSON ->
  (~ (exists code rest, directive code rest (req_Action req)) ->
   forall o w' t,
     Directives.actionHandler J H config actions r w = (o, w', t) ->
     (exists final,
         fallback_chain ["python3"; "python"; "py"]
           [Script act; Function act; paramsJSON] (execs t) final) /\
     remote_calls t = [])
  /\ (forall o w' t,
     HartleyMain.actionHandler J H config actions r w = (o, w', t) ->
     (exists final,
         fallback_chain ["python3"; "python"; "py"]
           [Script act; Function act; paramsJSON] (execs t) final) /\
     remote_calls t = []).
Proof.
  intros [Hmethod Hdecode] Hlookup Hparams. split.
  - intros Hplain o w' t Hrun.
    unfold Directives.actionHandler, Directives.resolve in Hrun.
    rewrite Hmethod, Hdecode, (parsePrefix_plain _ Hplain) in Hrun.
    change (negb (String.eqb http_MethodPost http_MethodPost)) with false in Hrun.
    change (String.eqb "" "py") with false in Hrun.
    change (String.eqb "" "sh") with false in Hrun.
    rewrite rangeActions_lookup, Hlookup in Hrun.
    cbn [rangeActions] in Hrun.
    rewrite (lookup_action_name _ _ _ Hlookup), Hparams in Hrun.
    run Hrun.
    all: trace_simpl; (split; [solve_chain | reflexivity]).
  - intros o w' t Hrun.
    unfold HartleyMain.actionHandler, HartleyMain.resolve in Hrun.
    rewrite Hmethod, Hdecode in Hrun.
    change (negb (String.eqb http_MethodPost http_MethodPost)) with false in Hrun.
    rewrite rangeActions_lookup, Hlookup in Hrun.
    cbn [rangeActions] in Hrun.
    rewrite (lookup_action_name _ _ _ Hlookup), Hparams in Hrun.
    run Hrun.
    all: trace_simpl; (split; [solve_chain | reflexivity]).
Qed.

Lemma resolve_without_db db :
  Directives.resolve J (with_db H db) config actions =
  Directives.resolve J H config actions.
Proof. reflexivity. Qed.

(** C2, amended. The handler always returns. For a POST request whose body
    decodes, it writes one response, that of [resp], and attempts one audit
    record, of the same [resp]; a failed audit write is logged. A request
    rejected for its method or its body gets one response and no audit
    record. The response does not depend on the database. *)
Theorem one_response_one_audit (r : Request) (w : W) o w' t :
  Directives.actionHandler J H config actions r w = (o, w', t) ->
  o = Returned tt
  /\ (forall req, handled J r req ->
      exists resp err,
        response t = written J (map_Value resp) /\
        audit_records t =
          [(req_Action req, marshal_or_empty J (ActionRequest_Value req),
            marshal_or_empty J (map_Value resp), err)] /\
        (forall e, err = Some e ->
           In ("Error logging to database: " +:+ Error e) (log_lines t)))
  /\ (~ (exists req, handled J r req) ->
      audit_records t = [] /\
      exists status text,
        response t =
          EvWriteHeader status :: written J (VMap {[ "error" := VString text ]}))
  /\ (forall db o2 w2 t2,
      Directives.actionHandler J (with_db H db) config actions r w = (o2, w2, t2) ->
      o2 = o /\ response t2 = response t).
Proof.
  unfold handled, written. intros Hrun.
  unfold Directives.actionHandler in Hrun.
  destruct (String.eqb (Method r) http_MethodPost) eqn:Hmethod; cbn [negb] in Hrun.
  2:{ apply String.eqb_neq in Hmethod. run Hrun.
      all: split; [reflexivity|]; split; [intros req []; done|].
      all: split; [intros _; split; [reflexivity|]; unfold response; simpl;
                   exists http_StatusMethodNotAllowed, "Method not allowed";
                   match goal with Hm : json_Marshal _ _ = _ |- _ => rewrite Hm end;
                   reflexivity|].
      all: intros db o2 w2 t2 Hrun2; unfold Directives.actionHandler in Hrun2.
      all: apply String.eqb_neq in Hmethod; rewrite Hmethod in Hrun2.
      all: cbn [negb] in Hrun2; run Hrun2; crush. }
  apply String.eqb_eq in Hmethod.
  destruct (json_Decode_ActionRequest J (Body r)) as [req|e] eqn:Hdecode.
  2:{ run Hrun.
      all: split; [reflexivity|]; split; [intros req []; congruence|].
      all: split; [intros _; split; [reflexivity|]; unfold response; simpl;
                   exists http_StatusBadRequest, "Invalid JSON";
                   match goal with Hm : json_Marshal _ _ = _ |- _ => rewrite Hm end;
                   reflexivity|].
      all: intros db o2 w2 t2 Hrun2; unfold Directives.actionHandler in Hrun2.
      all: rewrite Hmethod, Hdecode in Hrun2.
      all: change (negb (String.eqb http_MethodPost http_MethodPost)) with false in Hrun2.
      all: run Hrun2; crush. }
  cbv [mbind M_bind bind] in Hrun.
  destruct (Directives_resolve_returns J H config actions req w)
    as (resp & w1 & t1 & Hres & Haudit & Hresp).
  rewrite Hres in Hrun. run Hrun.
  all: split; [reflexivity|].
  all: split;
    [ intros req' [_ Heq]; injection Heq as <-;
      exists resp; unfold response, audit_records, log_lines in *;
      rewrite ?List.filter_app, ?omap_app, ?Haudit, ?Hresp; simpl;
      try match goal with
          | Hm : json_Marshal _ (map_Value _) = _ |- _ => rewrite Hm
          end;
      eexists; split; [reflexivity|]; split; [reflexivity|];
      intros e' He'; crush; rewrite in_app_iff; right; simpl; auto
    | ].
  all: split; [intros Hnone; destruct Hnone; eauto|].
  all: intros db o2 w2 t2 Hrun2; unfold Directives.actionHandler in Hrun2.
  all: rewrite Hmethod, Hdecode in Hrun2.
  all: change (negb (String.eqb http_MethodPost http_MethodPost)) with false in Hrun2.
  all: cbv [mbind M_bind bind] in Hrun2; rewrite resolve_without_db, Hres in Hrun2.
  all: run Hrun2.
  all: unfold response; rewrite ?List.filter_app; simpl; crush.
Qed.
End Handler.

Section Noninterference.
Context {W : Type} (J : JSON) (H : Host W) (config : Config) (actions : list Action).

Lemma Directives_resolve_params (action : string) (p1 p2 : GoMap) :
  lookup_action actions action = None ->
  Directives.resolve J H config actions (mkActionRequest action p2) =
  Directives.resolve J H config actions (mkActionRequest action p1).
Proof.
  intros Hl. unfold Directives.resolve. cbn [req_Action].
  destruct (Directives.parsePrefix action) as [prefix payload].
  destruct (String.eqb prefix "py"); [reflexivity|].
  destruct (String.eqb prefix "sh"); [reflexivity|].
  rewrite !rangeActions_lookup. cbn [req_Action]. by rewrite Hl.
Qed.

Lemma HartleyMain_resolve_params (action : string) (p1 p2 : GoMap) :
  lookup_action actions action = None ->
  HartleyMain.resolve J H config actions (mkActionRequest action p2) =
  HartleyMain.resolve J H config actions (mkActionRequest action p1).
Proof.
  intros Hl. unfold HartleyMain.resolve.
  rewrite !rangeActions_lookup. cbn [req_Action]. by rewrite Hl.
Qed.

(** C10. Two POST requests with the same action string, registered under no
    name, and any two params get the same outcome and the same response from
    the same state of the world, in both programs. *)
Theorem params_do_not_interfere (r1 r2 : Request) (action : string)
    (p1 p2 : GoMap) (w : W) :
  handled J r1 (mkActionRequest action p1) ->
  handled J r2 (mkActionRequest action p2) ->
  (forall act, In act actions -> Name act <> action) ->
  (forall o1 w1 t1 o2 w2 t2,
      Directives.actionHandler J H config actions r1 w = (o1, w1, t1) ->
      Directives.actionHandler J H config actions r2 w = (o2, w2, t2) ->
      o1 = o2 /\ response t1 = response t2)
  /\ (forall o1 w1 t1 o2 w2 t2,
      HartleyMain.actionHandler J H config actions r1 w = (o1, w1, t1) ->
      HartleyMain.actionHandler J H config actions r2 w = (o2, w2, t2) ->
      o1 = o2 /\ response t1 = response t2).
Proof.
  intros [Hm1 Hd1] [Hm2 Hd2] Hunregistered.
  pose proof (lookup_action_unregistered _ _ Hunregistered) as Hl.
  split; intros o1 w1 t1 o2 w2 t2 Hrun1 Hrun2.
  - unfold Directives.actionHandler in Hrun1, Hrun2.
    rewrite Hm1, Hd1 in Hrun1. rewrite Hm2, Hd2 in Hrun2.
    change (negb (String.eqb http_MethodPost http_MethodPost)) with false in *.
    cbv [mbind M_bind bind] in Hrun1, Hrun2.
    rewrite (Directives_resolve_params action p1 p2 Hl) in Hrun2.
    destruct (Directives_resolve_returns J H config actions
                (mkActionRequest action p1) w) as (resp & w' & t' & Hres & _).
    rewrite Hres in Hrun1, Hrun2.
    run Hrun1; run Hrun2.
    all: unfold response; rewrite ?List.filter_app; simpl; crush.
  - unfold HartleyMain.actionHandler in Hrun1, Hrun2.
    rewrite Hm1, Hd1 in Hrun1. rewrite Hm2, Hd2 in Hrun2.
    change (negb (String.eqb http_MethodPost http_MethodPost)) with false in *.
    cbv [mbind M_bind bind] in Hrun1, Hrun2.
    rewrite (HartleyMain_resolve_params action p1 p2 Hl) in Hrun2.
    destruct (HartleyMain.resolve J H config actions (mkActionRequest action p1) w)
      as [[o w'] t'] eqn:Hres.
    apply HartleyMain_resolve_outcome in Hres
      as (_ & _ & [(resp & ds & -> & Hds) | (-> & _)]).
    2:{ by crush. }
    destruct Hds as [-> | [-> | [name ->]]].
    all: unfold bodyClose, osRemove in Hrun1, Hrun2.
    all: run Hrun1; run Hrun2.
    all: unfold response; rewrite ?List.filter_app; simpl; crush.
Qed.
End Noninterference.

Section Routing.
Context {W : Type} (J : JSON) (H : Host W) (config : Config) (actions : list Action).

(** C6. An action string is a directive exactly when it has at least three
    bytes, the third is a space and the first two are [py] or [sh]; then
    [parsePrefix] returns the code and the trimmed remainder, otherwise the
    empty prefix and the input; and [resolve] routes a directive to its
    handler without looking at the registered actions. *)
Theorem directive_routing :
  (forall input,
      (3 <= String.length input /\ String.get 2 input = Some " "%char /\
       (String.substring 0 2 input = "py" \/ String.substring 0 2 input = "sh"))
      <-> exists code rest, directive code rest input)
  /\ (forall input code rest,
      directive code rest input ->
      Directives.parsePrefix input = (code, strings_TrimSpace rest))
  /\ (forall input,
      ~ (exists code rest, directive code rest input) ->
      Directives.parsePrefix input = ("", input))
  /\ (forall req rest,
      directive "py" rest (req_Action req) ->
      Directives.resolve J H config actions req =
      Directives.handlePythonCommand J H config (strings_TrimSpace rest))
  /\ (forall req rest,
      directive "sh" rest (req_Action req) ->
      Directives.resolve J H config actions req =
      Directives.handleShellCommand J H (strings_TrimSpace rest)).
Proof.
  split; [exact directive_conditions|].
  split; [intros input code rest; apply parsePrefix_directive|].
  split; [exact parsePrefix_plain|].
  split; intros req rest Hd; unfold Directives.resolve;
    by rewrite (parsePrefix_directive _ _ _ Hd).
Qed.
End Routing.

(** ** Examples *)

Import Scripted Example Runs.

(** On a machine with [python] only, [runPython] tries python3, then python,
    and returns what python printed. *)
Example runPython_falls_back_to_python :
  runPython (host registered_script_prints) ["script.py"] 0 =
    (Returned (result_42, None), 2,
     [EvExec "python3" ["script.py"] EmptyString
        (Some (mkError "exec: python3: executable file not found in $PATH" true));
      EvLog "python3 not found, falling back to python";
      EvExec "python" ["script.py"] result_42 None]).
Proof. vm_compute. reflexivity. Qed.

(** The text [Python was not found] printed by a script that ends with
    success does not make [runPython] go on. *)
Example runPython_stops_on_success :
  execs (trace (runPython (host {| on_exec := script_prints "Python was not found";
                                   on_post := None; on_read := Ok EmptyString;
                                   on_tempfile := Ok EmptyString; on_write := None;
                                   on_readfile := Ok EmptyString; on_db := None |})
                          ["script.py"] 0)) =
    [("python3", ["script.py"], "Python was not found", None)].
Proof. vm_compute. reflexivity. Qed.

Lemma fallback_is_envelope_witness :
  outcome fallback_run = Returned (geminiRespToMap Codec.json (envelope "print(1/0)")).
Proof.
  apply (proj1 (fallback_is_envelope Codec.json (host generated_script_fails) config
                  [get_time] ask 0 (envelope "print(1/0)"))
           (outcome fallback_run) (fallback_run.1.2) (trace fallback_run)).
  - vm_compute. reflexivity.
  - exists (envelope_body "print(1/0)"). split; vm_compute; [left|]; reflexivity.
  - by repeat eexists.
  - right. right. left. eexists _, _. vm_compute. reflexivity.
Defined.



(** C2, counterexample. A GET request is answered with an error object and
    no audit record is attempted. *)
Lemma rejected_request_not_audited :
  audit_records (trace get_run) = [] /\
  bodies (trace get_run) =
    [Codec.encode (VMap {[ "error" := VString "Method not allowed" ]}) +:+ LF].
Proof. repeat split; vm_compute; reflexivity. Qed.

Lemma one_response_one_audit_witness :
  outcome registered_failure_handler_run = Returned tt /\
  length (audit_records (trace registered_failure_handler_run)) = 1.
Proof.
  destruct (one_response_one_audit Codec.json (host registered_script_fails) config
              [get_time] (post "get_time") 0
              (outcome registered_failure_handler_run)
              (registered_failure_handler_run.1.2)
              (trace registered_failure_handler_run))
    as (Hreturned & Haudited & _).
  { vm_compute. reflexivity. }
  split; [exact Hreturned|].
  destruct (Haudited get_time_request) as (resp & err & _ & Hrecord & _).
  { split; vm_compute; reflexivity. }
  rewrite Hrecord. reflexivity.
Defined.

Lemma registered_action_runs_script_witness :
  (exists final,
      fallback_chain ["python3"; "python"; "py"]
        ["python/action_runner.py"; "get_time"; "{}"]
        (execs (trace registered_run)) final) /\
  remote_calls (trace registered_run) = [].
Proof.
  apply (proj1 (registered_action_runs_script Codec.json (host registered_script_prints)
                  config [get_time] (post "get_time") get_time_request get_time
                  "{}" 0 ltac:(split; vm_compute; reflexivity) eq_refl eq_refl)
           ltac:(intros (code & rest & [-> | ->] & Heq); vm_compute in Heq; discriminate Heq)
           (outcome registered_run) (registered_run.1.2)).
  vm_compute. reflexivity.
Defined.

Lemma directive_routing_witness :
  Directives.parsePrefix "py  six times seven " = ("py", "six times seven").
Proof.
  apply (proj1 (proj2 (directive_routing Codec.json (host generated_script_prints)
                         config [get_time]))
           "py  six times seven " "py" " six times seven ").
  split; [left|]; reflexivity.
Defined.

Lemma empty_envelope_is_no_content_witness :
  outcome empty_run =
    Returned (error_map_with "No content generated by Gemini" "raw_response"
                (Codec.encode (GeminiResponse_Value (mkGeminiResponse [])))).
Proof.
  apply (proj1 (empty_envelope_is_no_content Codec.json (host nothing_generated) config
                  [get_time] ask 0)
           (outcome empty_run) (empty_run.1.2) (trace empty_run)).
  - vm_compute. reflexivity.
  - split; [vm_compute; left; reflexivity|].
    exists (mkGeminiResponse []). split; [vm_compute; reflexivity | by left].
Defined.

Lemma params_do_not_interfere_witness :
  outcome (question_run (Some ∅)) = outcome (question_run some_params) /\
  response (trace (question_run (Some ∅))) = response (trace (question_run some_params)).
Proof.
  apply (proj1 (params_do_not_interfere Codec.json (host generated_script_prints) config
                  [get_time]
                  (mkRequest "POST" (Codec.encode (ActionRequest_Value (ask_with (Some ∅)))))
                  (mkRequest "POST" (Codec.encode (ActionRequest_Value (ask_with some_params))))
                  "what is six times seven" (Some ∅) some_params 0
                  ltac:(split; vm_compute; reflexivity)
                  ltac:(split; vm_compute; reflexivity)
                  ltac:(intros act [<- | []]; vm_compute; discriminate))
           _ (question_run (Some ∅)).1.2 _ _ (question_run some_params).1.2 _).
  - vm_compute. reflexivity.
  - vm_compute. reflexivity.
Defined.

(** * Further properties *)

(** * Further properties *)

(** ** [extractValidJSON] *)





(** ** The handlers, piece by piece *)

Section Pieces.
Context {W : Type} (J : JSON) (H : Host W).

Lemma jsonResponse_run (data : Value) (w : W) :
  jsonResponse J data w = (Returned tt, w, written J data).
Proof.
  unfold jsonResponse, written. cbv [mbind mret M_bind M_ret bind ret emit].
  by destruct (json_Marshal J data).
Qed.

Lemma logToDB_run (req : ActionRequest) (resp : GoMap) (w : W) :
  exists err w',
    logToDB J H (req_Action req) (ActionRequest_Value req) (map_Value resp) w =
      (Returned tt, w', recorded J req resp err).
Proof.
  unfold logToDB, recorded, dbExec.
  cbv [mbind mret M_bind M_ret bind ret emit log_Printf].
  destruct (db_Exec H _ _ _ w) as [[e|] w']; simpl;
    [by exists (Some e), w' | by exists None, w'].
Qed.

Lemma Plain_rangeActions_lookup (actions : list Action) (req : ActionRequest) :
  Plain.rangeActions J H actions req =
    match lookup_action actions (req_Action req) with
    | Some act => Plain.rangeActions J H [act] req
    | None => mret (false, None)
    end.
Proof.
  unfold lookup_action.
  induction actions as [|act rest IH]; [reflexivity|].
  cbn [Plain.rangeActions List.find].
  destruct (String.eqb (Name act) (req_Action req)) eqn:E; [|exact IH].
  cbn [Plain.rangeActions]. by rewrite E.
Qed.

Lemma Marker_rangeActions_lookup (actions : list Action) (req : ActionRequest) :
  Marker.rangeActions J H actions req =
    match lookup_action actions (req_Action req) with
    | Some act => Marker.rangeActions J H [act] req
    | None => mret (false, None)
    end.
Proof.
  unfold lookup_action.
  induction actions as [|act rest IH]; [reflexivity|].
  cbn [Marker.rangeActions List.find].
  destruct (String.eqb (Name act) (req_Action req)) eqn:E; [|exact IH].
  cbn [Marker.rangeActions]. by rewrite E.
Qed.

End Pieces.

Ltac run_plain Hrun :=
  unfold Plain.resolve in Hrun;
  let Hlookup := fresh "Hlookup" in
  rewrite Plain_rangeActions_lookup in Hrun;
  destruct (lookup_action _ _) as [act|] eqn:Hlookup in Hrun;
  [ cbn [Plain.rangeActions] in Hrun;
    rewrite (lookup_action_name _ _ _ Hlookup) in Hrun
  | unfold Plain.generate in Hrun ];
  run Hrun.

Ltac run_marker Hrun :=
  unfold Marker.resolve in Hrun;
  let Hlookup := fresh "Hlookup" in
  rewrite Marker_rangeActions_lookup in Hrun;
  destruct (lookup_action _ _) as [act|] eqn:Hlookup in Hrun;
  [ cbn [Marker.rangeActions] in Hrun;
    rewrite (lookup_action_name _ _ _ Hlookup) in Hrun
  | unfold Marker.generate in Hrun ];
  run Hrun.

Ltac more_simpl :=
  unfold quiet, runs_only, cleanup, scratch_created, scratch_removed,
    bodies_opened, bodies_closed;
  trace_simpl.

Ltac solve_runs :=
  first [ exists []; solve [constructor] | eexists; solve [repeat constructor] ].

Ltac solve_deferred :=
  intros ?; unfold cleanup, scratch_created, bodies_opened; simpl;
  cbv [HartleyMain.run_deferred mbind mret M_bind M_ret bind ret osRemove bodyClose];
  simpl; eauto.

Section Invariants.
Context {W : Type} (J : JSON) (H : Host W) (config : Config) (actions : list Action).

Lemma Directives_resolve_invariants (req : ActionRequest) (w : W) o w' t :
  Directives.resolve J H config actions req w = (o, w', t) ->
  (exists resp, o = Returned resp) /\ quiet t /\
  length (remote_calls t) <= 1 /\ length (scratch_created t) <= 1 /\
  length (execs t) <= 3 /\ (exists args, runs_only args t) /\
  scratch_removed t = scratch_created t /\ bodies_closed t = bodies_opened t.
Proof.
  intros Hrun. run_directives Hrun.
  all: more_simpl; split; [eauto|]; split; [done|].
  all: repeat (split; [lia|]); split; [|done].
  all: solve_runs.
Qed.

Lemma HartleyMain_resolve_invariants (req : ActionRequest) (w : W) o w' t :
  HartleyMain.resolve J H config actions req w = (o, w', t) ->
  quiet t /\
  length (remote_calls t) <= 1 /\ length (scratch_created t) <= 1 /\
  length (execs t) <= 3 /\ (exists args, runs_only args t) /\
  scratch_removed t = [] /\ bodies_closed t = [] /\
  ((exists resp ds, o = Returned (resp, ds) /\ deferred_cleanup ds t /\
                    exists prompt, files_read t = [("systemPrompt.txt", Ok prompt)])
   \/ (o = Exited 1 /\ cleanup t = [] /\
       exists e, files_read t = [("systemPrompt.txt", Err e)])).
Proof.
  intros Hrun. run_main Hrun.
  all: more_simpl; split; [done|].
  all: repeat (split; [lia|]); split; [solve_runs|].
  all: split; [done|]; split; [done|].
  all: first [ left; eexists _, _; split; [reflexivity|]; split; [solve_deferred | eauto]
             | right; eauto ].
Qed.

Lemma Plain_resolve_invariants (req : ActionRequest) (w : W) o w' t :
  Plain.resolve J H config actions req w = (o, w', t) ->
  quiet t /\
  length (remote_calls t) <= 1 /\ length (scratch_created t) <= 1 /\
  length (execs t) <= 1 /\ (exists args, runs_only args t) /\
  scratch_removed t = [] /\ bodies_closed t = [] /\
  exists resp ds, o = Returned (resp, ds) /\ deferred_cleanup ds t.
Proof.
  intros Hrun. run_plain Hrun.
  all: more_simpl; split; [done|].
  all: repeat (split; [lia|]); split; [solve_runs|].
  all: split; [done|]; split; [done|].
  all: eexists _, _; split; [reflexivity | solve_deferred].
Qed.

Lemma Marker_resolve_invariants (req : ActionRequest) (w : W) o w' t :
  Marker.resolve J H config actions req w = (o, w', t) ->
  quiet t /\
  length (remote_calls t) <= 1 /\ length (scratch_created t) <= 1 /\
  length (execs t) <= 3 /\ (exists args, runs_only args t) /\
  scratch_removed t = [] /\ bodies_closed t = [] /\
  exists resp ds, o = Returned (resp, ds) /\ deferred_cleanup ds t.
Proof.
  intros Hrun. run_marker Hrun.
  all: more_simpl; split; [done|].
  all: repeat (split; [lia|]); split; [solve_runs|].
  all: split; [done|]; split; [done|].
  all: eexists _, _; split; [reflexivity | solve_deferred].
Qed.

End Invariants.

Section Handlers.
Context {W : Type} (J : JSON) (H : Host W) (config : Config) (actions : list Action).

Lemma Directives_actionHandler_trace (r : Request) (w : W) o w' t :
  Directives.actionHandler J H config actions r w = (o, w', t) ->
  o = Returned tt /\
  ((exists req resp w1 t1 err,
       handled J r req /\
       Directives.resolve J H config actions req w = (Returned resp, w1, t1) /\
       t = answered J req resp err t1)
   \/ rejected J r t).
Proof.
  unfold Directives.actionHandler, rejected, answered, handled.
  destruct (String.eqb (Method r) http_MethodPost) eqn:Hmethod; cbn [negb].
  2:{ apply String.eqb_neq in Hmethod.
      cbv [mbind M_bind bind emit]. rewrite jsonResponse_run.
      intros Heq. injection Heq as <- <- <-. split; [done|]. right. left. done. }
  apply String.eqb_eq in Hmethod.
  destruct (json_Decode_ActionRequest J (Body r)) as [req|e] eqn:Hdecode.
  2:{ cbv [mbind M_bind bind emit]. rewrite jsonResponse_run.
      intros Heq. injection Heq as <- <- <-. split; [done|]. right. right. eauto. }
  cbv [mbind M_bind bind].
  destruct (Directives.resolve J H config actions req w) as [[o1 w1] t1] eqn:Hres.
  destruct (Directives_resolve_invariants J H config actions req w _ _ _ Hres)
    as ([resp ->] & _).
  destruct (logToDB_run J H req resp w1) as (err & w2 & ->).
  rewrite jsonResponse_run.
  intros Heq. injection Heq as <- <- <-. split; [done|]. left.
  by exists req, resp, w1, t1, err.
Qed.

(** The three programs whose handler defers the clean-up share the text of
    [actionHandler] after the pipeline. *)
Lemma deferred_handler_trace
    (resolve : ActionRequest -> M W (GoMap * list (M W unit)))
    (handler : Request -> M W unit) (r : Request) (w : W) o w' t :
  (forall r,
      handler r =
        if negb (String.eqb (Method r) http_MethodPost) then
          emit (EvWriteHeader http_StatusMethodNotAllowed);;
          jsonResponse J (VMap {[ "error" := VString "Method not allowed" ]})
        else
          match json_Decode_ActionRequest J (Body r) with
          | Err _ =>
              emit (EvWriteHeader http_StatusBadRequest);;
              jsonResponse J (VMap {[ "error" := VString "Invalid JSON" ]})
          | Ok req =>
              '(resp, deferred) ← resolve req;
              logToDB J H (req_Action req) (ActionRequest_Value req) (map_Value resp);;
              jsonResponse J (map_Value resp);;
              HartleyMain.run_deferred deferred
          end) ->
  (forall req w o1 w1 t1,
      resolve req w = (o1, w1, t1) ->
      (exists resp ds, o1 = Returned (resp, ds) /\ deferred_cleanup ds t1)
      \/ (o1 = Exited 1 /\ cleanup t1 = [])) ->
  handler r w = (o, w', t) ->
  (exists req o1 w1 t1,
      handled J r req /\ resolve req w = (o1, w1, t1) /\
      ((exists resp ds err,
           o1 = Returned (resp, ds) /\ o = Returned tt /\
           t = answered J req resp err t1 ++ cleanup t1)
       \/ (o1 = Exited 1 /\ o = Exited 1 /\ t = t1 /\ cleanup t1 = [])))
  \/ (o = Returned tt /\ rejected J r t).
Proof.
  intros Hhandler Hresolve. rewrite Hhandler.
  unfold rejected, answered, handled.
  destruct (String.eqb (Method r) http_MethodPost) eqn:Hmethod; cbn [negb].
  2:{ apply String.eqb_neq in Hmethod.
      cbv [mbind M_bind bind emit]. rewrite jsonResponse_run.
      intros Heq. injection Heq as <- <- <-. right. split; [done|]. left. done. }
  apply String.eqb_eq in Hmethod.
  destruct (json_Decode_ActionRequest J (Body r)) as [req|e] eqn:Hdecode.
  2:{ cbv [mbind M_bind bind emit]. rewrite jsonResponse_run.
      intros Heq. injection Heq as <- <- <-. right. split; [done|]. right. eauto. }
  cbv [mbind M_bind bind].
  destruct (resolve req w) as [[o1 w1] t1] eqn:Hres.
  destruct (Hresolve _ _ _ _ _ Hres) as [(resp & ds & -> & Hds) | [-> Hnone]].
  - destruct (logToDB_run J H req resp w1) as (err & w2 & ->).
    rewrite jsonResponse_run. destruct (Hds w2) as [w3 ->].
    intros Heq. injection Heq as <- <- <-. left.
    exists req, (Returned (resp, ds)), w1, t1. split; [done|]. split; [done|].
    left. exists resp, ds, err. rewrite <- !app_assoc. done.
  - intros Heq. injection Heq as <- <- <-. left.
    exists req, (Exited 1), w1, t1. split; [done|]. split; [done|]. right. done.
Qed.

Lemma HartleyMain_actionHandler_trace (r : Request) (w : W) o w' t :
  HartleyMain.actionHandler J H config actions r w = (o, w', t) ->
  (exists req o1 w1 t1,
      handled J r req /\
      HartleyMain.resolve J H config actions req w = (o1, w1, t1) /\
      ((exists resp ds err,
           o1 = Returned (resp, ds) /\ o = Returned tt /\
           t = answered J req resp err t1 ++ cleanup t1)
       \/ (o1 = Exited 1 /\ o = Exited 1 /\ t = t1 /\ cleanup t1 = [])))
  \/ (o = Returned tt /\ rejected J r t).
Proof.
  apply deferred_handler_trace; [reflexivity|].
  intros req w0 o1 w1 t1 Hres.
  destruct (HartleyMain_resolve_invariants J H config actions _ _ _ _ _ Hres)
    as (_ & _ & _ & _ & _ & _ & _ & [(resp & ds & -> & Hds & _) | (-> & Hnone & _)]);
    eauto.
Qed.

Lemma Plain_actionHandler_trace (r : Request) (w : W) o w' t :
  Plain.actionHandler J H config actions r w = (o, w', t) ->
  (exists req o1 w1 t1,
      handled J r req /\
      Plain.resolve J H config actions req w = (o1, w1, t1) /\
      ((exists resp ds err,
           o1 = Returned (resp, ds) /\ o = Returned tt /\
           t = answered J req resp err t1 ++ cleanup t1)
       \/ (o1 = Exited 1 /\ o = Exited 1 /\ t = t1 /\ cleanup t1 = [])))
  \/ (o = Returned tt /\ rejected J r t).
Proof.
  apply deferred_handler_trace; [reflexivity|].
  intros req w0 o1 w1 t1 Hres.
  destruct (Plain_resolve_invariants J H config actions _ _ _ _ _ Hres)
    as (_ & _ & _ & _ & _ & _ & _ & resp & ds & -> & Hds); eauto.
Qed.

Lemma Marker_actionHandler_trace (r : Request) (w : W) o w' t :
  Marker.actionHandler J H config actions r w = (o, w', t) ->
  (exists req o1 w1 t1,
      handled J r req /\
      Marker.resolve J H config actions req w = (o1, w1, t1) /\
      ((exists resp ds err,
           o1 = Returned (resp, ds) /\ o = Returned tt /\
           t = answered J req resp err t1 ++ cleanup t1)
       \/ (o1 = Exited 1 /\ o = Exited 1 /\ t = t1 /\ cleanup t1 = [])))
  \/ (o = Returned tt /\ rejected J r t).
Proof.
  apply deferred_handler_trace; [reflexivity|].
  intros req w0 o1 w1 t1 Hres.
  destruct (Marker_resolve_invariants J H config actions _ _ _ _ _ Hres)
    as (_ & _ & _ & _ & _ & _ & _ & resp & ds & -> & Hds); eauto.
Qed.

End Handlers.

(** ** What the parts of a handler's trace show *)

Lemma omap_cleanup {A} (f : Event -> option A) (t : list Event) :
  f EvBodyClose = None -> (forall name, f (EvRemove name) = None) ->
  omap f (cleanup t) = [].
Proof.
  intros Hclose Hremove. unfold cleanup. rewrite omap_app.
  assert (omap f (map EvRemove (scratch_created t)) = []) as ->.
  { induction (scratch_created t) as [|name l IH]; simpl; [done|].
    by rewrite Hremove. }
  induction (bodies_opened t) as [|u l IH]; simpl; [done|].
  by rewrite Hclose.
Qed.

Lemma omap_recorded {A} (f : Event -> option A) J req resp err :
  (forall a b c e, f (EvDbExec a b c e) = None) ->
  (forall line, f (EvLog line) = None) ->
  omap f (recorded J req resp err) = [].
Proof.
  intros Hdb Hlog. unfold recorded. simpl. rewrite Hdb.
  destruct err; simpl; [by rewrite Hlog | done].
Qed.

Lemma omap_written {A} (f : Event -> option A) J v :
  (forall k x, f (EvHeaderSet k x) = None) ->
  (forall b, f (EvWrite b) = None) ->
  omap f (written J v) = [].
Proof.
  intros Hset Hwrite. unfold written. simpl. rewrite Hset.
  destruct (json_Marshal J v); simpl; [by rewrite Hwrite | done].
Qed.

Lemma scratch_removed_cleanup (t : list Event) :
  scratch_removed (cleanup t) = scratch_created t.
Proof.
  unfold cleanup, scratch_removed. rewrite omap_app.
  assert (forall l : list unit,
             omap (fun e => match e with EvRemove name => Some name | _ => None end)
                  (map (fun _ => EvBodyClose) l) = []) as ->.
  { induction l; simpl; done. }
  rewrite app_nil_r.
  induction (scratch_created t) as [|name l IH]; simpl; [done | by f_equal].
Qed.

Lemma bodies_closed_cleanup (t : list Event) :
  bodies_closed (cleanup t) = bodies_opened t.
Proof.
  unfold cleanup, bodies_closed. rewrite omap_app.
  assert (forall l : list string,
             omap (fun e => match e with EvBodyClose => Some tt | _ => None end)
                  (map EvRemove l) = []) as ->.
  { induction l; simpl; done. }
  simpl.
  induction (bodies_opened t) as [|[] l IH]; simpl; [done | by f_equal].
Qed.

Lemma response_cleanup (t : list Event) : response (cleanup t) = [].
Proof.
  unfold cleanup, response. rewrite List.filter_app.
  assert (List.filter is_response_event (map EvRemove (scratch_created t)) = []) as ->.
  { induction (scratch_created t); simpl; done. }
  induction (bodies_opened t); simpl; done.
Qed.

Lemma response_recorded J req resp err : response (recorded J req resp err) = [].
Proof. unfold recorded, response. by destruct err. Qed.

Lemma response_written J v : response (written J v) = written J v.
Proof. unfold written, response. by destruct (json_Marshal J v). Qed.

Lemma cleanup_nil (t : list Event) :
  cleanup t = [] -> scratch_created t = [] /\ bodies_opened t = [].
Proof.
  unfold cleanup. intros Heq. apply app_eq_nil in Heq as [Hs Hb].
  apply map_eq_nil in Hs. apply map_eq_nil in Hb. done.
Qed.


Lemma answered_execs J req resp err t1 post :
  execs (answered J req resp err t1 ++ cleanup post) = execs t1.
Proof.
  unfold answered, execs.
  rewrite !omap_app, omap_recorded, omap_written, omap_cleanup by done.
  by rewrite !app_nil_r.
Qed.

Lemma answered_remote_calls J req resp err t1 post :
  remote_calls (answered J req resp err t1 ++ cleanup post) = remote_calls t1.
Proof.
  unfold answered, remote_calls.
  rewrite !omap_app, omap_recorded, omap_written, omap_cleanup by done.
  by rewrite !app_nil_r.
Qed.

Lemma answered_files_read J req resp err t1 post :
  files_read (answered J req resp err t1 ++ cleanup post) = files_read t1.
Proof.
  unfold answered, files_read.
  rewrite !omap_app, omap_recorded, omap_written, omap_cleanup by done.
  by rewrite !app_nil_r.
Qed.

Lemma answered_scratch_created J req resp err t1 post :
  scratch_created (answered J req resp err t1 ++ cleanup post) = scratch_created t1.
Proof.
  unfold answered, scratch_created at 1.
  rewrite !omap_app, omap_recorded, omap_written, omap_cleanup by done.
  by rewrite !app_nil_r.
Qed.

Lemma answered_bodies_opened J req resp err t1 post :
  bodies_opened (answered J req resp err t1 ++ cleanup post) = bodies_opened t1.
Proof.
  unfold answered, bodies_opened at 1.
  rewrite !omap_app, omap_recorded, omap_written, omap_cleanup by done.
  by rewrite !app_nil_r.
Qed.

Lemma answered_scratch_removed J req resp err t1 post :
  scratch_removed (answered J req resp err t1 ++ cleanup post) =
    scratch_removed t1 ++ scratch_created post.
Proof.
  rewrite <- (scratch_removed_cleanup post).
  unfold answered, scratch_removed.
  rewrite !omap_app, omap_recorded, omap_written by done.
  by rewrite !app_nil_r.
Qed.

Lemma answered_bodies_closed J req resp err t1 post :
  bodies_closed (answered J req resp err t1 ++ cleanup post) =
    bodies_closed t1 ++ bodies_opened post.
Proof.
  rewrite <- (bodies_closed_cleanup post).
  unfold answered, bodies_closed.
  rewrite !omap_app, omap_recorded, omap_written by done.
  by rewrite !app_nil_r.
Qed.

Lemma answered_audit_records J req resp err t1 post :
  audit_records (answered J req resp err t1 ++ cleanup post) =
    audit_records t1 ++
    [(req_Action req, marshal_or_empty J (ActionRequest_Value req),
      marshal_or_empty J (map_Value resp), err)].
Proof.
  unfold answered, audit_records.
  rewrite !omap_app, omap_written, omap_cleanup by done.
  rewrite !app_nil_r. f_equal. unfold recorded. by destruct err.
Qed.

Lemma answered_response J req resp err t1 post :
  response (answered J req resp err t1 ++ cleanup post) =
    response t1 ++ written J (map_Value resp).
Proof.
  unfold answered. unfold response at 1. rewrite !List.filter_app.
  fold (response t1). fold (response (recorded J req resp err)).
  fold (response (written J (map_Value resp))). fold (response (cleanup post)).
  by rewrite response_recorded, response_written, response_cleanup, app_nil_r.
Qed.

Lemma rejected_shows J r t :
  rejected J r t ->
  execs t = [] /\ remote_calls t = [] /\ files_read t = [] /\
  scratch_created t = [] /\ scratch_removed t = [] /\
  bodies_opened t = [] /\ bodies_closed t = [] /\ audit_records t = [].
Proof.
  unfold rejected, written.
  intros [[_ ->] | (_ & _ & ->)]; destruct (json_Marshal J _); by repeat split.
Qed.

(** The trace of a handled request of the server with directives, written
    as the traces of the other servers are. *)
Ltac with_cleanup :=
  match goal with
  | |- context [answered ?J ?req ?resp ?err ?t1] =>
      replace (answered J req resp err t1)
        with (answered J req resp err t1 ++ cleanup []) by apply app_nil_r
  end.

Ltac shown :=
  rewrite ?answered_execs, ?answered_remote_calls, ?answered_files_read,
    ?answered_scratch_created, ?answered_bodies_opened, ?answered_scratch_removed,
    ?answered_bodies_closed, ?answered_audit_records, ?answered_response.

(** The cases of a run of a handler that defers its clean-up. *)
Ltac handler_cases Hrun :=
  let Hh := fresh "Hhandled" in
  let Hres := fresh "Hres" in
  let Hnil := fresh "Hnil" in
  let Hrej := fresh "Hrej" in
  let req := fresh "req" in
  let o1 := fresh "o1" in
  let w1 := fresh "w1" in
  let t1 := fresh "t1" in
  let resp := fresh "resp" in
  let ds := fresh "ds" in
  let err := fresh "err" in
  let lemma_cases lem :=
    apply lem in Hrun
      as [(req & o1 & w1 & t1 & Hh & Hres &
           [(resp & ds & err & -> & -> & ->) | (-> & -> & -> & Hnil)])
         | [-> Hrej]] in
  first [ lemma_cases uconstr:(HartleyMain_actionHandler_trace)
        | lemma_cases uconstr:(Plain_actionHandler_trace)
        | lemma_cases uconstr:(Marker_actionHandler_trace) ].

Section Served.
Context {W : Type} (J : JSON) (H : Host W) (config : Config) (actions : list Action).

(** X2. Whatever the request and the host, when a handler is done every
    scratch file it created has been removed and every response body of the
    remote service it opened has been closed, in the four programs.  In
    [hartley-main.go] the exit on an unreadable prompt file comes before
    anything is created or opened. *)
Theorem handlers_clean_up (r : Request) (w : W) :
  (let t := trace (Directives.actionHandler J H config actions r w) in
   scratch_removed t = scratch_created t /\ bodies_closed t = bodies_opened t)
  /\ (let t := trace (HartleyMain.actionHandler J H config actions r w) in
      scratch_removed t = scratch_created t /\ bodies_closed t = bodies_opened t)
  /\ (let t := trace (Plain.actionHandler J H config actions r w) in
      scratch_removed t = scratch_created t /\ bodies_closed t = bodies_opened t)
  /\ (let t := trace (Marker.actionHandler J H config actions r w) in
      scratch_removed t = scratch_created t /\ bodies_closed t = bodies_opened t).
Proof.
  split; [|split; [|split]]; cbv zeta.
  - destruct (Directives.actionHandler J H config actions r w) as [[o w'] t] eqn:Hrun.
    unfold trace. cbn [snd].
    apply Directives_actionHandler_trace in Hrun
      as [_ [(req & resp & w1 & t1 & err & _ & Hres & ->) | Hrej]].
    + apply Directives_resolve_invariants in Hres
        as (_ & _ & _ & _ & _ & _ & Hremoved & Hclosed).
      with_cleanup. shown. cbn [cleanup scratch_created bodies_opened omap].
      by rewrite !app_nil_r.
    + apply rejected_shows in Hrej as (_ & _ & _ & -> & -> & -> & -> & _). done.
  - destruct (HartleyMain.actionHandler J H config actions r w) as [[o w'] t] eqn:Hrun.
    unfold trace. cbn [snd].
    handler_cases Hrun.
    + apply HartleyMain_resolve_invariants in Hres
        as (_ & _ & _ & _ & _ & Hremoved & Hclosed & _).
      shown. by rewrite Hremoved, Hclosed.
    + apply HartleyMain_resolve_invariants in Hres
        as (_ & _ & _ & _ & _ & Hremoved & Hclosed & _).
      apply cleanup_nil in Hnil as [-> ->]. done.
    + apply rejected_shows in Hrej as (_ & _ & _ & -> & -> & -> & -> & _). done.
  - destruct (Plain.actionHandler J H config actions r w) as [[o w'] t] eqn:Hrun.
    unfold trace. cbn [snd].
    handler_cases Hrun.
    + apply Plain_resolve_invariants in Hres
        as (_ & _ & _ & _ & _ & Hremoved & Hclosed & _).
      shown. by rewrite Hremoved, Hclosed.
    + apply Plain_resolve_invariants in Hres
        as (_ & _ & _ & _ & _ & Hremoved & Hclosed & _).
      apply cleanup_nil in Hnil as [-> ->]. done.
    + apply rejected_shows in Hrej as (_ & _ & _ & -> & -> & -> & -> & _). done.
  - destruct (Marker.actionHandler J H config actions r w) as [[o w'] t] eqn:Hrun.
    unfold trace. cbn [snd].
    handler_cases Hrun.
    + apply Marker_resolve_invariants in Hres
        as (_ & _ & _ & _ & _ & Hremoved & Hclosed & _).
      shown. by rewrite Hremoved, Hclosed.
    + apply Marker_resolve_invariants in Hres
        as (_ & _ & _ & _ & _ & Hremoved & Hclosed & _).
      apply cleanup_nil in Hnil as [-> ->]. done.
    + apply rejected_shows in Hrej as (_ & _ & _ & -> & -> & -> & -> & _). done.
Qed.

Lemma Plain_resolve_python3 (req : ActionRequest) (w : W) o w' t :
  Plain.resolve J H config actions req w = (o, w', t) ->
  Forall (fun '(name, _, _, _) => name = "python3") (execs t).
Proof.
  intros Hrun. run_plain Hrun.
  all: trace_simpl; repeat constructor.
Qed.

Lemma HartleyMain_exit_shows (req : ActionRequest) (w : W) w' t :
  HartleyMain.resolve J H config actions req w = (Exited 1, w', t) ->
  remote_calls t = [] /\ scratch_created t = [].
Proof.
  intros Hrun. run_main Hrun.
  all: try discriminate Hrun.
  all: injection Hrun as <- <-; more_simpl; done.
Qed.

(** X3. One request costs at most one call of the remote service, one
    scratch file and three interpreter runs (one in the first program, which
    knows python3 only), and all the interpreter runs of a request get the
    same arguments. *)
Theorem request_effects_bounded (r : Request) (w : W) :
  (let t := trace (Directives.actionHandler J H config actions r w) in
   length (remote_calls t) <= 1 /\ length (scratch_created t) <= 1 /\
   length (execs t) <= 3 /\ exists args, runs_only args t)
  /\ (let t := trace (HartleyMain.actionHandler J H config actions r w) in
      length (remote_calls t) <= 1 /\ length (scratch_created t) <= 1 /\
      length (execs t) <= 3 /\ exists args, runs_only args t)
  /\ (let t := trace (Plain.actionHandler J H config actions r w) in
      length (remote_calls t) <= 1 /\ length (scratch_created t) <= 1 /\
      length (execs t) <= 1 /\
      Forall (fun '(name, _, _, _) => name = "python3") (execs t))
  /\ (let t := trace (Marker.actionHandler J H config actions r w) in
      length (remote_calls t) <= 1 /\ length (scratch_created t) <= 1 /\
      length (execs t) <= 3 /\ exists args, runs_only args t).
Proof.
  split; [|split; [|split]]; cbv zeta.
  - destruct (Directives.actionHandler J H config actions r w) as [[o w'] t] eqn:Hrun.
    unfold trace. cbn [snd].
    apply Directives_actionHandler_trace in Hrun
      as [_ [(req & resp & w1 & t1 & err & _ & Hres & ->) | Hrej]].
    + apply Directives_resolve_invariants in Hres
        as (_ & _ & Hcalls & Hfiles & Hexecs & Hargs & _).
      unfold runs_only in *. with_cleanup. shown. done.
    + apply rejected_shows in Hrej as (He & -> & _ & -> & _).
      unfold runs_only. rewrite He. simpl. repeat split; try lia. by exists [].
  - destruct (HartleyMain.actionHandler J H config actions r w) as [[o w'] t] eqn:Hrun.
    unfold trace. cbn [snd].
    handler_cases Hrun.
    + apply HartleyMain_resolve_invariants in Hres
        as (_ & Hcalls & Hfiles & Hexecs & Hargs & _).
      unfold runs_only in *. shown. done.
    + apply HartleyMain_resolve_invariants in Hres
        as (_ & Hcalls & Hfiles & Hexecs & Hargs & _). done.
    + apply rejected_shows in Hrej as (He & -> & _ & -> & _).
      unfold runs_only. rewrite He. simpl. repeat split; try lia. by exists [].
  - destruct (Plain.actionHandler J H config actions r w) as [[o w'] t] eqn:Hrun.
    unfold trace. cbn [snd].
    handler_cases Hrun.
    + pose proof (Plain_resolve_python3 _ _ _ _ _ Hres) as Hname.
      apply Plain_resolve_invariants in Hres
        as (_ & Hcalls & Hfiles & Hexecs & _).
      shown. done.
    + pose proof (Plain_resolve_python3 _ _ _ _ _ Hres) as Hname.
      apply Plain_resolve_invariants in Hres
        as (_ & Hcalls & Hfiles & Hexecs & _). done.
    + apply rejected_shows in Hrej as (-> & -> & _ & -> & _).
      simpl. repeat split; try lia. constructor.
  - destruct (Marker.actionHandler J H config actions r w) as [[o w'] t] eqn:Hrun.
    unfold trace. cbn [snd].
    handler_cases Hrun.
    + apply Marker_resolve_invariants in Hres
        as (_ & Hcalls & Hfiles & Hexecs & Hargs & _).
      unfold runs_only in *. shown. done.
    + apply Marker_resolve_invariants in Hres
        as (_ & Hcalls & Hfiles & Hexecs & Hargs & _). done.
    + apply rejected_shows in Hrej as (He & -> & _ & -> & _).
      unfold runs_only. rewrite He. simpl. repeat split; try lia. by exists [].
Qed.

(** X4. In [hartley-main.go] every request that reaches the pipeline reads
    [systemPrompt.txt] once, registered action or not, and the handler ends
    in one of two ways: it returns, or the process exits with status 1.  It
    exits exactly when the file could not be read, and then nothing is
    written to the caller, no audit record is attempted, the remote service
    was not called and no scratch file was created. *)
Theorem unreadable_prompt_ends_process (r : Request) (w : W) o w' t :
  HartleyMain.actionHandler J H config actions r w = (o, w', t) ->
  (o = Returned tt \/ o = Exited 1)
  /\ (o = Exited 1 <-> exists e, files_read t = [("systemPrompt.txt", Err e)])
  /\ (o = Exited 1 ->
      response t = [] /\ audit_records t = [] /\ remote_calls t = [] /\
      scratch_created t = [])
  /\ (forall req, handled J r req ->
      exists res, files_read t = [("systemPrompt.txt", res)]).
Proof.
  intros Hrun. handler_cases Hrun.
  - apply HartleyMain_resolve_invariants in Hres
      as (_ & _ & _ & _ & _ & _ & _ &
          [(resp' & ds' & _ & _ & prompt & Hread) | (Hexit & _)]);
      [|discriminate Hexit].
    shown. rewrite Hread.
    split; [by left|]. split; [|split; [done|eauto]].
    split; [done | intros [e He]; discriminate He].
  - pose proof (HartleyMain_exit_shows _ _ _ _ Hres) as [Hcalls Hfiles].
    apply HartleyMain_resolve_invariants in Hres
      as ([Haudit Hresp] & _ & _ & _ & _ & _ & _ &
          [(resp' & ds' & Hret & _) | (_ & _ & e & Hread)]);
      [discriminate Hret|].
    rewrite Hread.
    split; [by right|]. split; [split; eauto|]. split; [done | eauto].
  - pose proof (rejected_shows _ _ _ Hrej) as (_ & _ & Hread & _).
    rewrite Hread.
    split; [by left|]. split; [|split; [done|]].
    + split; [done | intros [e He]; discriminate He].
    + intros req [Hmethod Hdecode]. exfalso.
      destruct Hrej as [[Hm _] | (_ & [e He] & _)]; congruence.
Qed.

(** X5. A request that is not a POST, or whose body does not decode, is
    answered with the status 405 or 400 and an error object, and nothing
    else happens: no interpreter run, no call of the remote service, no file
    read or created, no audit record, in the four programs. *)
Theorem rejected_request_has_no_effect (r : Request) (w : W) :
  (forall req, ~ handled J r req) ->
  (let run := Directives.actionHandler J H config actions r w in
   outcome run = Returned tt /\ rejected J r (trace run))
  /\ (let run := HartleyMain.actionHandler J H config actions r w in
      outcome run = Returned tt /\ rejected J r (trace run))
  /\ (let run := Plain.actionHandler J H config actions r w in
      outcome run = Returned tt /\ rejected J r (trace run))
  /\ (let run := Marker.actionHandler J H config actions r w in
      outcome run = Returned tt /\ rejected J r (trace run))
  /\ (forall t, rejected J r t ->
      execs t = [] /\ remote_calls t = [] /\ files_read t = [] /\
      scratch_created t = [] /\ audit_records t = [] /\
      exists status text,
        (status = 405 \/ status = 400) /\
        response t =
          EvWriteHeader status :: written J (VMap {[ "error" := VString text ]})).
Proof.
  intros Hnone.
  split; [|split; [|split; [|split]]]; cbv zeta.
  - destruct (Directives.actionHandler J H config actions r w) as [[o w'] t] eqn:Hrun.
    unfold trace, outcome. cbn [fst snd].
    apply Directives_actionHandler_trace in Hrun
      as [-> [(req & resp & w1 & t1 & err & Hh & _) | Hrej]]; [|done].
    destruct (Hnone _ Hh).
  - destruct (HartleyMain.actionHandler J H config actions r w) as [[o w'] t] eqn:Hrun.
    unfold trace, outcome. cbn [fst snd].
    handler_cases Hrun; [destruct (Hnone _ Hhandled).. | done].
  - destruct (Plain.actionHandler J H config actions r w) as [[o w'] t] eqn:Hrun.
    unfold trace, outcome. cbn [fst snd].
    handler_cases Hrun; [destruct (Hnone _ Hhandled).. | done].
  - destruct (Marker.actionHandler J H config actions r w) as [[o w'] t] eqn:Hrun.
    unfold trace, outcome. cbn [fst snd].
    handler_cases Hrun; [destruct (Hnone _ Hhandled).. | done].
  - intros t Hrej.
    pose proof (rejected_shows _ _ _ Hrej) as (-> & -> & -> & -> & _ & _ & _ & ->).
    repeat (split; [done|]).
    destruct Hrej as [[_ ->] | (_ & _ & ->)].
    + exists http_StatusMethodNotAllowed, "Method not allowed".
      split; [by left|].
      by rewrite <- (response_written J (VMap {[ "error" := VString "Method not allowed" ]})) at 2.
    + exists http_StatusBadRequest, "Invalid JSON".
      split; [by right|].
      by rewrite <- (response_written J (VMap {[ "error" := VString "Invalid JSON" ]})) at 2.
Qed.

End Served.

(** ** The routes of the server with directives *)

Lemma directive_dec (input : string) :
  (exists code rest, directive code rest input) \/
  ~ (exists code rest, directive code rest input).
Proof.
  destruct (le_dec 3 (String.length input)) as [Hlen|Hlen];
    [|right; intros Hd; apply directive_conditions in Hd; tauto].
  destruct (decide (String.get 2 input = Some " "%char)) as [Hget|Hget];
    [|right; intros Hd; apply directive_conditions in Hd; tauto].
  destruct (string_dec (String.substring 0 2 input) "py") as [Hpy|Hpy];
    [left; apply directive_conditions; tauto|].
  destruct (string_dec (String.substring 0 2 input) "sh") as [Hsh|Hsh];
    [left; apply directive_conditions; tauto|].
  right. intros Hd. apply directive_conditions in Hd. tauto.
Qed.

Section Routes.
Context {W : Type} (J : JSON) (H : Host W) (config : Config) (actions : list Action).

Lemma Directives_resolve_py (req : ActionRequest) (rest : string) (w : W) :
  directive "py" rest (req_Action req) ->
  Directives.resolve J H config actions req w =
    Directives.handlePythonCommand J H config (strings_TrimSpace rest) w.
Proof.
  intros Hd. unfold Directives.resolve. by rewrite (parsePrefix_directive _ _ _ Hd).
Qed.

Lemma Directives_resolve_sh (req : ActionRequest) (rest : string) (w : W) :
  directive "sh" rest (req_Action req) ->
  Directives.resolve J H config actions req w =
    Directives.handleShellCommand J H (strings_TrimSpace rest) w.
Proof.
  intros Hd. unfold Directives.resolve. by rewrite (parsePrefix_directive _ _ _ Hd).
Qed.

Lemma Directives_resolve_plain (req : ActionRequest) (w : W) :
  ~ (exists code rest, directive code rest (req_Action req)) ->
  Directives.resolve J H config actions req w =
    ('(actionFound, resp) ← rangeActions J H actions req;
     if negb actionFound then
       Directives.handleConversational J H config (req_Action req)
     else mret resp) w.
Proof.
  intros Hd. unfold Directives.resolve. by rewrite (parsePrefix_plain _ Hd).
Qed.

End Routes.

(** [Directives.resolve] split by the form of the action string, which is
    kept among the hypotheses. *)
Ltac run_routes Hrun req :=
  let Hd := fresh "Hdirective" in
  let Hplain := fresh "Hplain" in
  let Hlookup := fresh "Hlookup" in
  let code := fresh "code" in
  let rest := fresh "rest" in
  destruct (directive_dec (req_Action req)) as [(code & rest & Hd) | Hplain];
  [ let Hcode := fresh in
    assert (code = "py" \/ code = "sh") as Hcode by apply Hd;
    destruct Hcode; subst code;
    [ rewrite (Directives_resolve_py _ _ _ _ _ _ _ Hd) in Hrun;
      unfold Directives.handlePythonCommand in Hrun
    | rewrite (Directives_resolve_sh _ _ _ _ _ _ _ Hd) in Hrun;
      unfold Directives.handleShellCommand in Hrun ]
  | rewrite (Directives_resolve_plain _ _ _ _ _ _ Hplain) in Hrun;
    rewrite rangeActions_lookup in Hrun;
    destruct (lookup_action _ _) as [act|] eqn:Hlookup in Hrun;
    [ cbn [rangeActions] in Hrun;
      rewrite (lookup_action_name _ _ _ Hlookup) in Hrun
    | unfold Directives.handleConversational in Hrun ] ];
  run Hrun.

Section Results.
Context {W : Type} (J : JSON) (H : Host W) (config : Config) (actions : list Action).

Lemma extractValidJSON_whole (out : bytes) (m : GoMap) :
  json_Unmarshal_map J out = Ok m ->
  Directives.extractValidJSON J out = Returned (Ok m).
Proof. intros Hm. unfold Directives.extractValidJSON. by rewrite Hm. Qed.

(** X6. When the script of a route other than a registered action ran with
    success, the result is what [extractValidJSON] finds in its output: the
    whole output decoded, else the last line that decodes. *)
Theorem unregistered_output_is_scanned (req : ActionRequest) (w : W) o w' t out m :
  Directives.resolve J H config actions req w = (o, w', t) ->
  (exists code rest, directive code rest (req_Action req)) \/
    lookup_action actions (req_Action req) = None ->
  last_exec t = Some (out, None) ->
  Directives.extractValidJSON J out = Returned (Ok m) ->
  o = Returned m.
Proof.
  intros Hrun. run_routes Hrun req.
  all: trace_simpl; intros Hroute Hlast Hfound.
  all: try discriminate Hlast.
  all: try (destruct Hroute as [Hroute | Hroute]; [by destruct Hplain | congruence]).
  all: injection Hlast as ->.
  all: try match goal with
           | Hm : json_Unmarshal_map _ _ = Ok _ |- _ =>
               apply extractValidJSON_whole in Hm
           end.
  all: congruence.
Qed.

(** X7. The output of a registered script that ran with success is decoded
    as a whole and never line by line: the result is the decoded object, or
    the error object that carries the raw output, in the server with
    directives, in [hartley-main.go] (unless the prompt file is unreadable)
    and in the first program. *)
Theorem registered_output_decoded_whole (req : ActionRequest) (act : Action)
    (w : W) (out : bytes) :
  lookup_action actions (req_Action req) = Some act ->
  let result :=
    match json_Unmarshal_map J out with
    | Ok m => m
    | Err _ => error_map_with "Error parsing action output" "raw_output" out
    end in
  (~ (exists code rest, directive code rest (req_Action req)) ->
   forall o w' t,
     Directives.resolve J H config actions req w = (o, w', t) ->
     last_exec t = Some (out, None) -> o = Returned result)
  /\ (forall o w' t,
      HartleyMain.resolve J H config actions req w = (o, w', t) ->
      last_exec t = Some (out, None) ->
      o = Returned (result, []) \/ o = Exited 1)
  /\ (forall o w' t,
      Plain.resolve J H config actions req w = (o, w', t) ->
      last_exec t = Some (out, None) -> o = Returned (result, [])).
Proof.
  intros Hlookup result. subst result. split; [|split].
  - intros Hplain o w' t Hrun.
    rewrite (Directives_resolve_plain _ _ _ _ _ _ Hplain) in Hrun.
    rewrite rangeActions_lookup, Hlookup in Hrun. cbn [rangeActions] in Hrun.
    rewrite (lookup_action_name _ _ _ Hlookup) in Hrun. run Hrun.
    all: trace_simpl; intros Hlast; try discriminate Hlast.
    all: injection Hlast as ->.
    all: match goal with Hm : json_Unmarshal_map _ _ = _ |- _ => by rewrite Hm end.
  - intros o w' t Hrun. unfold HartleyMain.resolve in Hrun.
    rewrite rangeActions_lookup, Hlookup in Hrun. cbn [rangeActions] in Hrun.
    rewrite (lookup_action_name _ _ _ Hlookup) in Hrun. run Hrun.
    all: trace_simpl; intros Hlast; try discriminate Hlast.
    all: try (by right).
    all: injection Hlast as ->; left.
    all: match goal with Hm : json_Unmarshal_map _ _ = _ |- _ => by rewrite Hm end.
  - intros o w' t Hrun. unfold Plain.resolve in Hrun.
    rewrite Plain_rangeActions_lookup, Hlookup in Hrun.
    cbn [Plain.rangeActions] in Hrun.
    rewrite (lookup_action_name _ _ _ Hlookup) in Hrun. run Hrun.
    all: trace_simpl; intros Hlast; try discriminate Hlast.
    all: injection Hlast as ->.
    all: match goal with Hm : json_Unmarshal_map _ _ = _ |- _ => by rewrite Hm end.
Qed.

(** X8. A shell directive runs the function [run_terminal_command] of
    [python/action_runner.py] with the object [{"command": payload}], where
    the payload is the trimmed remainder of the action string; a failed run
    gives the error object with the output, a successful one what
    [extractValidJSON] finds or the error object with the raw output; the
    remote service is not called and no scratch file is created. *)
Theorem shell_directive_runs_terminal_command (req : ActionRequest)
    (rest paramsJSON : string) (w : W) o w' t :
  directive "sh" rest (req_Action req) ->
  json_Marshal J (VMap {[ "command" := VString (strings_TrimSpace rest) ]}) =
    Ok paramsJSON ->
  Directives.resolve J H config actions req w = (o, w', t) ->
  (exists final,
      fallback_chain ["python3"; "python"; "py"]
        ["python/action_runner.py"; "run_terminal_command"; paramsJSON]
        (execs t) final /\
      (forall out e,
          final = (out, Some e) ->
          o = Returned (error_map_with ("Error executing shell command: " +:+ Error e)
                                       "output" out)) /\
      (forall out,
          final = (out, None) ->
          o = Returned
                match Directives.extractValidJSON J out with
                | Returned (Ok m) => m
                | _ => error_map_with "Error parsing shell command output"
                                      "raw_output" out
                end))
  /\ remote_calls t = [] /\ scratch_created t = [].
Proof.
  intros Hd Hparams Hrun.
  rewrite (Directives_resolve_sh _ _ _ _ _ _ _ Hd) in Hrun.
  unfold Directives.handleShellCommand in Hrun. rewrite Hparams in Hrun.
  run Hrun.
  all: more_simpl; split; [|done].
  all: eexists; split; [|split].
  all: try (repeat (split; [first [reflexivity | eassumption]|]);
            first [reflexivity | auto]).
  all: intros; crush.
  all: try match goal with
           | Hm : json_Unmarshal_map _ _ = Ok _ |- _ =>
               by rewrite (extractValidJSON_whole _ _ Hm)
           | Hx : Directives.extractValidJSON _ _ = _ |- _ => by rewrite Hx
           end.
Qed.

End Results.

Section Remote.
Context {W : Type} (J : JSON) (H : Host W) (config : Config) (actions : list Action).

(** X9. What the server with directives sends to the remote service: the
    URL is the configured endpoint with the key, and the body is the request
    object around a prompt, which is the code prompt followed by the trimmed
    payload for a [py] directive, and the general prompt followed by the
    whole action string for an action that is neither a directive nor
    registered.  On no other route is the service called. *)
Theorem remote_request_content (req : ActionRequest) (w : W) o w' t url body err :
  Directives.resolve J H config actions req w = (o, w', t) ->
  In (url, body, err) (remote_calls t) ->
  url = gemini_url config /\
  exists prompt,
    json_Marshal J (geminiReq prompt) = Ok body /\
    ((exists rest,
         directive "py" rest (req_Action req) /\
         prompt = Directives.pythonPrompt +:+ strings_TrimSpace rest)
     \/ (~ (exists code rest, directive code rest (req_Action req)) /\
         lookup_action actions (req_Action req) = None /\
         prompt = Directives.conversationalPrompt +:+ req_Action req)).
Proof.
  intros Hrun. run_routes Hrun req.
  all: trace_simpl; intros Hin; crush.
  all: split; [reflexivity|]; eexists; split; [eassumption|].
  all: first [ left; eexists; split; [eassumption | reflexivity]
             | right; split; [assumption|]; split; [assumption | reflexivity] ].
Qed.

(** X10. What the other three programs send to the remote service, and
    when: only for an action that is not registered, to the configured
    endpoint with the key, with the request object around the prompt
    followed by the action string.  The prompt is the content of
    [systemPrompt.txt], read for this request, in [hartley-main.go], and the
    fixed text of the program in the other two. *)
Theorem remote_request_of_other_programs (req : ActionRequest) (w : W) url body err :
  (forall o w' t,
      HartleyMain.resolve J H config actions req w = (o, w', t) ->
      In (url, body, err) (remote_calls t) ->
      url = gemini_url config /\
      lookup_action actions (req_Action req) = None /\
      exists systemPrompt,
        files_read t = [("systemPrompt.txt", Ok systemPrompt)] /\
        json_Marshal J (geminiReq (systemPrompt +:+ req_Action req)) = Ok body)
  /\ (forall o w' t,
      Plain.resolve J H config actions req w = (o, w', t) ->
      In (url, body, err) (remote_calls t) ->
      url = gemini_url config /\
      lookup_action actions (req_Action req) = None /\
      json_Marshal J (geminiReq (strictPrompt +:+ req_Action req)) = Ok body)
  /\ (forall o w' t,
      Marker.resolve J H config actions req w = (o, w', t) ->
      In (url, body, err) (remote_calls t) ->
      url = gemini_url config /\
      lookup_action actions (req_Action req) = None /\
      json_Marshal J (geminiReq (strictPrompt +:+ req_Action req)) = Ok body).
Proof.
  split; [|split].
  - intros o w' t Hrun. run_main Hrun.
    all: trace_simpl; intros Hin; crush.
    all: split; [reflexivity|]; split; [assumption|].
    all: eexists; split; [reflexivity | assumption].
  - intros o w' t Hrun. run_plain Hrun.
    all: trace_simpl; intros Hin; crush.
  - intros o w' t Hrun. run_marker Hrun.
    all: trace_simpl; intros Hin; crush.
Qed.

End Remote.

(** ** [strings.Index] and the slice from the index *)

Lemma drop_bytes_0 (s : string) : drop_bytes 0 s = s.
Proof. unfold drop_bytes. rewrite Nat.sub_0_r. apply substring_all. Qed.

Lemma drop_bytes_S (n : nat) (c : ascii) (s : string) :
  drop_bytes (S n) (String c s) = drop_bytes n s.
Proof. reflexivity. Qed.

Lemma strings_Index_range (s substr : string) :
  strings_Index s substr = (-1)%Z \/
  (0 <= strings_Index s substr <= Z.of_nat (String.length s))%Z.
Proof.
  induction s as [|c s IH]; cbn [strings_Index String.length].
  - destruct (String.prefix substr ""); [right; lia | by left].
  - destruct (String.prefix substr (String c s)); [right; lia|].
    cbv zeta.
    destruct (strings_Index s substr =? -1)%Z eqn:E; [by left|].
    apply Z.eqb_neq in E. right. lia.
Qed.

(** [strings.Index] returns -1 exactly when [strings.Contains] is false, and
    otherwise the least index at which [substr] starts. *)
Lemma strings_Index_first (s substr : string) :
  let i := strings_Index s substr in
  if (i =? -1)%Z then strings_Contains s substr = false
  else
    strings_Contains s substr = true /\
    String.prefix substr (Marker.slice_from s i) = true /\
    forall j, (0 <= j < i)%Z ->
              String.prefix substr (Marker.slice_from s j) = false.
Proof.
  cbv zeta. unfold Marker.slice_from.
  induction s as [|c s IH].
  - cbn [strings_Index strings_Contains].
    destruct (String.prefix substr "") eqn:Hp.
    + change (0 =? -1)%Z with false. cbv iota.
      split; [done|]. split; [exact Hp | lia].
    + done.
  - cbn [strings_Index strings_Contains].
    destruct (String.prefix substr (String c s)) eqn:Hp.
    + change (0 =? -1)%Z with false. cbv iota.
      split; [done|]. split; [|lia].
      change (Z.to_nat 0) with 0. by rewrite drop_bytes_0.
    + cbv zeta.
      destruct (strings_Index s substr =? -1)%Z eqn:E.
      * change (-1 =? -1)%Z with true. cbv iota. exact IH.
      * destruct (strings_Index_range s substr) as [Hi | Hi];
          [apply Z.eqb_neq in E; contradiction|].
        destruct (strings_Index s substr + 1 =? -1)%Z eqn:E';
          [apply Z.eqb_eq in E'; lia|].
        destruct IH as (Hc & Hat & Hbefore).
        split; [done|]. split.
        -- replace (Z.to_nat (strings_Index s substr + 1))
             with (S (Z.to_nat (strings_Index s substr))) by lia.
           by rewrite drop_bytes_S.
        -- intros j Hj. destruct (decide (j = 0%Z)) as [-> | Hne].
           ++ change (Z.to_nat 0) with 0. by rewrite drop_bytes_0.
           ++ replace (Z.to_nat j) with (S (Z.to_nat (j - 1))) by lia.
              rewrite drop_bytes_S. apply Hbefore. lia.
Qed.

Lemma field_error_map (text : string) : field "error" (error_map text) = Some (VString text).
Proof. unfold field, error_map. apply lookup_singleton_eq. Qed.

Lemma field_error_map_with (text key raw : string) :
  field "error" (error_map_with text key raw) = Some (VString text).
Proof. unfold field, error_map_with. apply lookup_insert_eq. Qed.

Section Programs.
Context {W : Type} (J : JSON) (H : Host W) (config : Config) (actions : list Action).

(** X11. In the first program the result of a request is the decoded output
    of a script that ran with success, or an object with an [error] field:
    there is no other result, whatever fails.  In particular a missing
    python3 is an error with the output, since no other interpreter is
    tried. *)
Theorem first_program_failures_are_errors (req : ActionRequest) (w : W) o w' t :
  Plain.resolve J H config actions req w = (o, w', t) ->
  exists resp ds,
    o = Returned (resp, ds) /\
    ((exists out, execs t <> [] /\ last_exec t = Some (out, None) /\
                  json_Unmarshal_map J out = Ok resp)
     \/ exists text, field "error" resp = Some (VString text)) /\
    (forall out e,
        last_exec t = Some (out, Some e) ->
        exists text, resp = error_map_with (text +:+ Error e) "output" out).
Proof.
  intros Hrun. run_plain Hrun.
  all: trace_simpl; eexists _, _; split; [reflexivity|].
  all: split; [|intros; crush].
  all: first [ left; eexists; split; [done|]; split; [reflexivity | eassumption]
             | right; eexists; apply field_error_map
             | right; eexists; apply field_error_map_with ].
Qed.

(** X12. In the program with the result marker the output of a script that
    ran with success is searched for the text [{"result"].  When the output
    does not contain it, the result is the error object (registered action)
    or the envelope converted to a map (generated code), whether the output
    is a JSON object or not.  Otherwise the output is decoded from the first
    occurrence of the marker on, and what comes before is ignored; when this
    decoding fails the result is again the error object or the envelope. *)
Theorem marker_decides_result (req : ActionRequest) (w : W) o w' t out :
  Marker.resolve J H config actions req w = (o, w', t) ->
  last_exec t = Some (out, None) ->
  exists resp ds,
    o = Returned (resp, ds) /\
    let i := strings_Index out Marker.marker in
    let failure text :=
      match lookup_action actions (req_Action req) with
      | Some _ => resp = error_map text
      | None => envelope_fallback J t resp
      end in
    if (i =? -1)%Z then
      strings_Contains out Marker.marker = false /\
      failure "Valid JSON not found in output"
    else
      String.prefix Marker.marker (Marker.slice_from out i) = true /\
      (forall j, (0 <= j < i)%Z ->
                 String.prefix Marker.marker (Marker.slice_from out j) = false) /\
      match json_Unmarshal_map J (Marker.slice_from out i) with
      | Ok m => resp = m
      | Err _ => failure "Error parsing extracted JSON"
      end.
Proof.
  intros Hrun. run_marker Hrun.
  all: trace_simpl; intros Hlast; try discriminate Hlast.
  all: injection Hlast as ->.
  all: eexists _, _; split; [reflexivity|].
  all: pose proof (strings_Index_first out Marker.marker) as Hfirst.
  all: cbv zeta in Hfirst |- *.
  all: match goal with Hl : lookup_action _ _ = _ |- _ => rewrite Hl end.
  all: destruct (strings_Index out Marker.marker =? -1)%Z; try discriminate.
  all: try (destruct Hfirst as (_ & Hat & Hbefore); split; [exact Hat|];
            split; [exact Hbefore|]).
  all: try (split; [exact Hfirst|]).
  all: try match goal with
           | Hm : json_Unmarshal_map _ _ = _ |- _ => rewrite Hm
           end.
  all: try reflexivity.
  all: solve_fallback.
Qed.

End Programs.

Lemma before_response J req resp err t1 :
  quiet t1 ->
  response (t1 ++ recorded J req resp err) = [] /\
  audit_records (t1 ++ recorded J req resp err) =
    [(req_Action req, marshal_or_empty J (ActionRequest_Value req),
      marshal_or_empty J (map_Value resp), err)] /\
  scratch_removed (t1 ++ recorded J req resp err) = scratch_removed t1 /\
  scratch_created (t1 ++ recorded J req resp err) = scratch_created t1.
Proof.
  intros [Haudit Hresp]. split; [|split; [|split]].
  - unfold response in *. rewrite List.filter_app, Hresp.
    apply response_recorded.
  - unfold audit_records in *. rewrite omap_app, Haudit.
    unfold recorded. by destruct err.
  - unfold scratch_removed. rewrite omap_app, omap_recorded by done.
    apply app_nil_r.
  - unfold scratch_created. rewrite omap_app, omap_recorded by done.
    apply app_nil_r.
Qed.

Section Order.
Context {W : Type} (J : JSON) (H : Host W) (config : Config) (actions : list Action).

(** X13. The order of a handled request: the pipeline, then the attempt to
    write the audit record, then the response, and nothing is written to the
    caller before.  The server with directives has removed its scratch file
    by then; the other three programs remove it only after the response is
    written. *)
Theorem response_follows_audit (r : Request) (req : ActionRequest) (w : W) :
  handled J r req ->
  (forall o w' t,
      Directives.actionHandler J H config actions r w = (o, w', t) ->
      exists pre resp err,
        t = pre ++ written J (map_Value resp) /\
        response pre = [] /\
        audit_records pre =
          [(req_Action req, marshal_or_empty J (ActionRequest_Value req),
            marshal_or_empty J (map_Value resp), err)] /\
        scratch_removed pre = scratch_created pre)
  /\ (forall handler,
      handler = HartleyMain.actionHandler J H config actions \/
      handler = Plain.actionHandler J H config actions \/
      handler = Marker.actionHandler J H config actions ->
      forall w' t,
        handler r w = (Returned tt, w', t) ->
        exists pre post resp err,
          t = pre ++ written J (map_Value resp) ++ post /\
          response pre = [] /\
          audit_records pre =
            [(req_Action req, marshal_or_empty J (ActionRequest_Value req),
              marshal_or_empty J (map_Value resp), err)] /\
          scratch_removed pre = [] /\
          scratch_removed post = scratch_created pre /\
          response post = []).
Proof.
  intros [Hmethod Hdecode]. split.
  - intros o w' t Hrun.
    apply Directives_actionHandler_trace in Hrun
      as [_ [(req' & resp & w1 & t1 & err & [_ Hdecode'] & Hres & ->) | Hrej]].
    + assert (req' = req) as -> by congruence.
      apply Directives_resolve_invariants in Hres
        as (_ & Hquiet & _ & _ & _ & _ & Hremoved & _).
      destruct (before_response J req resp err t1 Hquiet) as (Hr & Ha & Hsr & Hsc).
      exists (t1 ++ recorded J req resp err), resp, err.
      unfold answered. rewrite <- app_assoc.
      split; [done|]. split; [done|]. split; [done|]. congruence.
    + destruct Hrej as [[Hm _] | (_ & [e He] & _)]; congruence.
  - intros handler Hhandler w' t Hrun.
    assert (exists t1 resp err,
               quiet t1 /\ scratch_removed t1 = [] /\
               t = answered J req resp err t1 ++ cleanup t1)
      as (t1 & resp & err & Hquiet & Hremoved & ->).
    { remember (Returned tt) as o eqn:Ho in Hrun.
      destruct Hhandler as [-> | [-> | ->]]; handler_cases Hrun.
      all: try discriminate Ho.
      all: try (destruct Hrej as [[Hm _] | (_ & [e He] & _)]; congruence).
      all: assert (req0 = req) as -> by (destruct Hhandled; congruence).
      all: exists t1, resp, err.
      - by apply HartleyMain_resolve_invariants in Hres
          as (Hquiet & _ & _ & _ & _ & Hremoved & _).
      - by apply Plain_resolve_invariants in Hres
          as (Hquiet & _ & _ & _ & _ & Hremoved & _).
      - by apply Marker_resolve_invariants in Hres
          as (Hquiet & _ & _ & _ & _ & Hremoved & _). }
    destruct (before_response J req resp err t1 Hquiet) as (Hr & Ha & Hsr & Hsc).
    exists (t1 ++ recorded J req resp err), (cleanup t1), resp, err.
    unfold answered. rewrite <- !app_assoc.
    split; [done|]. split; [done|]. split; [done|].
    split; [congruence|]. split; [|apply response_cleanup].
    rewrite Hsc. apply scratch_removed_cleanup.
Qed.

End Order.

Section Agreement.
Context {W : Type} (J : JSON) (H : Host W) (config : Config) (actions : list Action).

Lemma rangeActions_registered (req : ActionRequest) (act : Action) (w : W) :
  lookup_action actions (req_Action req) = Some act ->
  exists resp w' t,
    rangeActions J H actions req w = (Returned (true, resp), w', t) /\
    length (execs t) <= 3 /\ files_read t = [].
Proof.
  intros Hlookup. rewrite rangeActions_lookup, Hlookup.
  destruct (rangeActions J H [act] req w) as [[o w'] t] eqn:Hrun.
  cbn [rangeActions] in Hrun.
  rewrite (lookup_action_name _ _ _ Hlookup) in Hrun. run Hrun.
  all: eexists _, _, _; split; [reflexivity|]; trace_simpl; split; [lia | done].
Qed.

(** X14. For a registered action without directive prefix the server with
    directives and [hartley-main.go] agree: started in the same state they
    run the interpreter in the same way and compute the same result, as long
    as [hartley-main.go] can read its prompt file, which it reads after the
    script has run and does not use. *)
Theorem registered_actions_agree (req : ActionRequest) (act : Action) (w : W)
    o w' t o2 w2 t2 :
  lookup_action actions (req_Action req) = Some act ->
  ~ (exists code rest, directive code rest (req_Action req)) ->
  Directives.resolve J H config actions req w = (o, w', t) ->
  HartleyMain.resolve J H config actions req w = (o2, w2, t2) ->
  (exists resp,
      o = Returned resp /\
      (o2 = Returned (resp, []) \/ o2 = Exited 1)) /\
  execs t2 = execs t /\
  exists res, t2 = t ++ [EvReadFile "systemPrompt.txt" res] ++
                   match res with
                   | Ok _ => []
                   | Err e => [EvLog ("Error reading systemPrompt.txt: " +:+ Error e)]
                   end.
Proof.
  intros Hlookup Hplain Hrun Hrun2.
  rewrite (Directives_resolve_plain _ _ _ _ _ _ Hplain) in Hrun.
  unfold HartleyMain.resolve in Hrun2.
  destruct (rangeActions_registered req act w Hlookup)
    as (resp & w1 & t1 & Hrange & _).
  cbv [mbind M_bind bind] in Hrun, Hrun2. rewrite Hrange in Hrun, Hrun2.
  run Hrun. run Hrun2.
  all: unfold execs; rewrite ?omap_app; cbn [omap]; rewrite ?app_nil_r.
  all: split; [eexists; split; [reflexivity | auto]|].
  all: split; [reflexivity|].
  all: match goal with
       | |- context [EvReadFile "systemPrompt.txt" ?r] => exists r
       end; reflexivity.
Qed.

End Agreement.

Lemma generated_code_intro (g : GeminiResponse) (c : GeminiCandidate) (p : GeminiPart) :
  Candidates g !! 0 = Some c -> Parts (Content c) !! 0 = Some p ->
  generated_code g = Some (Text p).
Proof.
  intros Hc Hp. unfold generated_code.
  destruct (Candidates g) as [|c' cs]; [discriminate|].
  injection Hc as ->.
  destruct (Parts (Content c)) as [|p' ps]; [discriminate|].
  by injection Hp as ->.
Qed.

(** The interpreter ran the scratch file that holds the generated code. *)
Ltac solve_generated :=
  eexists _, _, _;
  split; [eexists; split; [left; reflexivity | eassumption]|];
  split; [eapply generated_code_intro; eassumption|];
  split; [reflexivity|]; split; [reflexivity|];
  repeat constructor.

Section Generated.
Context {W : Type} (J : JSON) (H : Host W) (config : Config) (actions : list Action).

(** X15. On the routes that call the remote service, what the interpreter
    runs is what the service generated: whenever an interpreter is run, one
    scratch file was created in this request, the text of the first part of
    the first candidate of the decoded envelope was written to it without
    error, and that file is the only argument of every run, in the four
    programs. *)
Theorem generated_code_is_what_runs (req : ActionRequest) (w : W) :
  let run_generated t :=
    execs t <> [] -> remote_calls t <> [] ->
    exists file g code,
      envelope_received J t g /\ generated_code g = Some code /\
      scratch_created t = [file] /\
      scratch_written t = [(file, code, None)] /\
      runs_only [file] t in
  (forall o w' t,
      Directives.resolve J H config actions req w = (o, w', t) -> run_generated t)
  /\ (forall o w' t,
      HartleyMain.resolve J H config actions req w = (o, w', t) -> run_generated t)
  /\ (forall o w' t,
      Plain.resolve J H config actions req w = (o, w', t) -> run_generated t)
  /\ (forall o w' t,
      Marker.resolve J H config actions req w = (o, w', t) -> run_generated t).
Proof.
  cbv zeta. split; [|split; [|split]].
  - intros o w' t Hrun. run_directives Hrun.
    all: unfold scratch_written; more_simpl; intros Hexecs Hcalls; try done.
    all: solve_generated.
  - intros o w' t Hrun. run_main Hrun.
    all: unfold scratch_written; more_simpl; intros Hexecs Hcalls; try done.
    all: solve_generated.
  - intros o w' t Hrun. run_plain Hrun.
    all: unfold scratch_written; more_simpl; intros Hexecs Hcalls; try done.
    all: solve_generated.
  - intros o w' t Hrun. run_marker Hrun.
    all: unfold scratch_written; more_simpl; intros Hexecs Hcalls; try done.
    all: solve_generated.
Qed.

End Generated.





Section Status.
Context {W : Type} (J : JSON) (H : Host W) (config : Config) (actions : list Action).


End Status.

Section Database.
Context {W : Type} (J : JSON) (H : Host W) (config : Config) (actions : list Action).

Lemma HartleyMain_resolve_without_db db :
  HartleyMain.resolve J (with_db H db) config actions =
  HartleyMain.resolve J H config actions.
Proof. reflexivity. Qed.

Lemma Plain_resolve_without_db db :
  Plain.resolve J (with_db H db) config actions =
  Plain.resolve J H config actions.
Proof. reflexivity. Qed.

Lemma Marker_resolve_without_db db :
  Marker.resolve J (with_db H db) config actions =
  Marker.resolve J H config actions.
Proof. reflexivity. Qed.

Lemma rejected_unique (r : Request) (t t' : list Event) :
  rejected J r t -> rejected J r t' -> t' = t.
Proof.
  intros [[Hm ->] | (Hm & _ & ->)] [[Hm' ->] | (Hm' & _ & ->)]; congruence.
Qed.

Lemma rejected_not_handled (r : Request) (req : ActionRequest) (t : list Event) :
  rejected J r t -> handled J r req -> False.
Proof.
  intros [[Hm _] | (_ & [e He] & _)] [Hm' Hd]; congruence.
Qed.

Lemma handled_unique (r : Request) (req req' : ActionRequest) :
  handled J r req -> handled J r req' -> req' = req.
Proof. intros [_ Hd] [_ Hd']. congruence. Qed.

End Database.

Section Audit.
Context {W : Type} (J : JSON) (H : Host W) (config : Config) (actions : list Action).

(** X17. In [hartley-main.go], in the first program and in the program with
    the marker too, the audit store has no influence on the caller: with any
    other database the handler ends in the same way, writes the same
    response and runs the interpreter and the remote service in the same
    way. *)
Theorem audit_store_does_not_change_response (r : Request) (w : W)
    (db : string -> string -> string -> W -> option error * W) :
  let same (run run' : Outcome unit * W * list Event) :=
    outcome run' = outcome run /\
    response (trace run') = response (trace run) /\
    execs (trace run') = execs (trace run) /\
    remote_calls (trace run') = remote_calls (trace run) in
  same (HartleyMain.actionHandler J H config actions r w)
       (HartleyMain.actionHandler J (with_db H db) config actions r w)
  /\ same (Plain.actionHandler J H config actions r w)
          (Plain.actionHandler J (with_db H db) config actions r w)
  /\ same (Marker.actionHandler J H config actions r w)
          (Marker.actionHandler J (with_db H db) config actions r w).
Proof.
  cbv zeta. split; [|split].
  - destruct (HartleyMain.actionHandler J H config actions r w)
      as [[o w'] t] eqn:Hrun.
    destruct (HartleyMain.actionHandler J (with_db H db) config actions r w)
      as [[o' w''] t'] eqn:Hrun'.
    unfold outcome, trace. cbn [fst snd].
    handler_cases Hrun; handler_cases Hrun'.
    all: try solve [exfalso; eauto using rejected_not_handled].
    all: try (rewrite (rejected_unique _ _ _ _ Hrej Hrej0); done).
    all: pose proof (handled_unique _ _ _ _ Hhandled Hhandled0); subst req0.
    all: rewrite HartleyMain_resolve_without_db, Hres in Hres0.
    all: first [ discriminate Hres0 | injection Hres0; intros; subst ].
    all: shown; done.
  - destruct (Plain.actionHandler J H config actions r w)
      as [[o w'] t] eqn:Hrun.
    destruct (Plain.actionHandler J (with_db H db) config actions r w)
      as [[o' w''] t'] eqn:Hrun'.
    unfold outcome, trace. cbn [fst snd].
    handler_cases Hrun; handler_cases Hrun'.
    all: try solve [exfalso; eauto using rejected_not_handled].
    all: try (rewrite (rejected_unique _ _ _ _ Hrej Hrej0); done).
    all: pose proof (handled_unique _ _ _ _ Hhandled Hhandled0); subst req0.
    all: rewrite Plain_resolve_without_db, Hres in Hres0.
    all: first [ discriminate Hres0 | injection Hres0; intros; subst ].
    all: shown; done.
  - destruct (Marker.actionHandler J H config actions r w)
      as [[o w'] t] eqn:Hrun.
    destruct (Marker.actionHandler J (with_db H db) config actions r w)
      as [[o' w''] t'] eqn:Hrun'.
    unfold outcome, trace. cbn [fst snd].
    handler_cases Hrun; handler_cases Hrun'.
    all: try solve [exfalso; eauto using rejected_not_handled].
    all: try (rewrite (rejected_unique _ _ _ _ Hrej Hrej0); done).
    all: pose proof (handled_unique _ _ _ _ Hhandled Hhandled0); subst req0.
    all: rewrite Marker_resolve_without_db, Hres in Hres0.
    all: first [ discriminate Hres0 | injection Hres0; intros; subst ].
    all: shown; done.
Qed.

End Audit.

(** ** More examples *)

Import Cases.

Lemma not_a_directive_get_time :
  ~ (exists code rest, directive code rest "get_time").
Proof. intros (code & rest & [-> | ->] & Heq); vm_compute in Heq; discriminate Heq. Qed.

Lemma unreadable_prompt_ends_process_witness :
  length (execs (trace prompt_missing_run)) = 1 /\
  outcome prompt_missing_run = Exited 1 /\
  response (trace prompt_missing_run) = [] /\
  audit_records (trace prompt_missing_run) = [].
Proof.
  destruct (unreadable_prompt_ends_process Codec.json (host prompt_missing) config
              [get_time] (post "get_time") 0
              (outcome prompt_missing_run) (prompt_missing_run.1.2)
              (trace prompt_missing_run))
    as (_ & Hexit & Hquiet & _).
  { vm_compute. reflexivity. }
  split; [vm_compute; reflexivity|].
  assert (outcome prompt_missing_run = Exited 1) as Ho.
  { apply Hexit.
    exists (errors_New "open systemPrompt.txt: no such file or directory").
    vm_compute. reflexivity. }
  split; [exact Ho|].
  destruct (Hquiet Ho) as (Hresp & Haudit & _). split; [exact Hresp | exact Haudit].
Defined.

Lemma rejected_request_has_no_effect_witness :
  outcome get_run = Returned tt /\
  rejected Codec.json (mkRequest "GET" EmptyString) (trace get_run).
Proof.
  apply (proj1 (rejected_request_has_no_effect Codec.json (host registered_script_prints)
                  config [get_time] (mkRequest "GET" EmptyString) 0
                  ltac:(intros req [Hm _]; vm_compute in Hm; discriminate Hm))).
Defined.

Lemma unregistered_output_is_scanned_witness :
  outcome scanned_run = Returned (Some {[ "result" := VNumber "42" ]}).
Proof.
  apply (unregistered_output_is_scanned Codec.json (host generated_script_prints) config
           [get_time] ask 0 (outcome scanned_run) (scanned_run.1.2) (trace scanned_run)
           noisy_output).
  - vm_compute. reflexivity.
  - right. vm_compute. reflexivity.
  - vm_compute. reflexivity.
  - vm_compute. reflexivity.
Defined.

Lemma registered_output_decoded_whole_witness :
  outcome progress_run =
    Returned
      match json_Unmarshal_map Codec.json noisy_output with
      | Ok m => m
      | Err _ => error_map_with "Error parsing action output" "raw_output" noisy_output
      end.
Proof.
  apply (proj1 (registered_output_decoded_whole Codec.json
                  (host registered_script_prints_progress) config [get_time]
                  get_time_request get_time 0 noisy_output eq_refl)
           not_a_directive_get_time
           (outcome progress_run) (progress_run.1.2) (trace progress_run)).
  - vm_compute. reflexivity.
  - vm_compute. reflexivity.
Defined.

(** The registered script printed a progress line before its result: the
    server with directives answers with the error object, the server with
    the marker with the result. *)
Example progress_line_before_result :
  outcome progress_run =
    Returned (error_map_with "Error parsing action output" "raw_output" noisy_output) /\
  outcome progress_run_marker = Returned (Some {[ "result" := VNumber "42" ]}, []).
Proof. split; vm_compute; reflexivity. Qed.

Lemma shell_directive_runs_terminal_command_witness :
  remote_calls (trace sh_run) = [] /\ scratch_created (trace sh_run) = [].
Proof.
  apply (proj2 (shell_directive_runs_terminal_command Codec.json
                  (host registered_script_prints) config [get_time] sh_request
                  "ls -la "
                  (Codec.encode (VMap {[ "command" := VString "ls -la" ]})) 0
                  (outcome sh_run) (sh_run.1.2) (trace sh_run)
                  ltac:(split; [right|]; reflexivity)
                  ltac:(vm_compute; reflexivity)
                  ltac:(vm_compute; reflexivity))).
Defined.

(** The interpreter runs of the shell directive [sh ls -la ] on a machine
    with [python] only. *)
Example shell_directive_runs :
  map (fun '(name, args, _, _) => (name, args)) (execs (trace sh_run)) =
    [("python3", ["python/action_runner.py"; "run_terminal_command";
                  "{" +:+ DQ +:+ "command" +:+ DQ +:+ ":" +:+ DQ +:+ "ls -la" +:+ DQ +:+ "}"]);
     ("python", ["python/action_runner.py"; "run_terminal_command";
                 "{" +:+ DQ +:+ "command" +:+ DQ +:+ ":" +:+ DQ +:+ "ls -la" +:+ DQ +:+ "}"])].
Proof. vm_compute. reflexivity. Qed.

Lemma remote_request_content_witness :
  exists prompt,
    json_Marshal Codec.json (geminiReq prompt) =
      Ok (Codec.encode (geminiReq (Directives.pythonPrompt +:+ "six times seven"))) /\
    ((exists rest,
         directive "py" rest (req_Action py_request) /\
         prompt = Directives.pythonPrompt +:+ strings_TrimSpace rest)
     \/ (~ (exists code rest, directive code rest (req_Action py_request)) /\
         lookup_action [get_time] (req_Action py_request) = None /\
         prompt = Directives.conversationalPrompt +:+ req_Action py_request)).
Proof.
  apply (proj2 (remote_request_content Codec.json (host generated_script_prints) config
                  [get_time] py_request 0
                  (outcome py_run) (py_run.1.2) (trace py_run)
                  (gemini_url config)
                  (Codec.encode (geminiReq (Directives.pythonPrompt +:+ "six times seven")))
                  None
                  ltac:(vm_compute; reflexivity)
                  ltac:(vm_compute; left; reflexivity))).
Defined.

Lemma remote_request_of_other_programs_witness :
  lookup_action [get_time] (req_Action ask) = None /\
  exists systemPrompt,
    files_read (trace fallback_run_main) = [("systemPrompt.txt", Ok systemPrompt)] /\
    json_Marshal Codec.json (geminiReq (systemPrompt +:+ req_Action ask)) =
      Ok (Codec.encode
            (geminiReq ("Answer with Python code: what is six times seven"))).
Proof.
  apply (proj2 (proj1 (remote_request_of_other_programs Codec.json
                         (host generated_script_fails) config [get_time] ask 0
                         (gemini_url config)
                         (Codec.encode
                            (geminiReq
                               ("Answer with Python code: what is six times seven")))
                         None)
                  (outcome fallback_run_main) (fallback_run_main.1.2)
                  (trace fallback_run_main)
                  ltac:(vm_compute; reflexivity)
                  ltac:(vm_compute; left; reflexivity))).
Defined.

Lemma first_program_failures_are_errors_witness :
  exists resp ds,
    outcome first_program_run = Returned (resp, ds) /\
    ((exists out, execs (trace first_program_run) <> [] /\
                  last_exec (trace first_program_run) = Some (out, None) /\
                  json_Unmarshal_map Codec.json out = Ok resp)
     \/ exists text, field "error" resp = Some (VString text)) /\
    (forall out e,
        last_exec (trace first_program_run) = Some (out, Some e) ->
        exists text, resp = error_map_with (text +:+ Error e) "output" out).
Proof.
  apply (first_program_failures_are_errors Codec.json (host registered_script_prints)
           config [get_time] get_time_request 0
           (outcome first_program_run) (first_program_run.1.2)
           (trace first_program_run)).
  vm_compute. reflexivity.
Defined.

(** On a machine with [python] only the first program answers the registered
    action with an error, after one run of python3. *)
Example first_program_knows_python3_only :
  outcome first_program_run =
    Returned (error_map_with
                "Error executing action: exec: python3: executable file not found in $PATH"
                "output" EmptyString, []) /\
  map (fun '(name, _, _, _) => name) (execs (trace first_program_run)) = ["python3"].
Proof. split; vm_compute; reflexivity. Qed.

Lemma marker_decides_result_witness :
  exists ds,
    outcome progress_run_marker = Returned (Some {[ "result" := VNumber "42" ]}, ds).
Proof.
  destruct (marker_decides_result Codec.json (host registered_script_prints_progress)
              config [get_time] get_time_request 0
              (outcome progress_run_marker) (progress_run_marker.1.2)
              (trace progress_run_marker) noisy_output)
    as (resp & ds & Ho & Hresult).
  { vm_compute. reflexivity. }
  { vm_compute. reflexivity. }
  exists ds. rewrite Ho.
  assert (strings_Index noisy_output Marker.marker = 14%Z) as Hi
    by (vm_compute; reflexivity).
  cbv zeta in Hresult. rewrite Hi in Hresult.
  change (14 =? -1)%Z with false in Hresult. cbv iota in Hresult.
  destruct Hresult as (_ & _ & Hresult).
  assert (json_Unmarshal_map Codec.json (Marker.slice_from noisy_output 14) =
            Ok (Some {[ "result" := VNumber "42" ]})) as Hm
    by (vm_compute; reflexivity).
  rewrite Hm in Hresult. by rewrite Hresult.
Defined.

(** An output that is a JSON object without the marker is not accepted by
    the server with the marker. *)
Example marker_rejects_other_objects :
  json_Unmarshal_map Codec.json answer_42 = Ok (Some {[ "answer" := VNumber "42" ]}) /\
  outcome (Marker.resolve Codec.json
             (host {| on_exec := script_prints answer_42;
                      on_post := None; on_read := Ok EmptyString;
                      on_tempfile := Ok EmptyString; on_write := None;
                      on_readfile := Ok EmptyString; on_db := None |})
             config [get_time] get_time_request 0) =
    Returned (error_map "Valid JSON not found in output", []).
Proof. split; vm_compute; reflexivity. Qed.

Lemma response_follows_audit_witness :
  exists pre resp err,
    trace registered_run = pre ++ written Codec.json (map_Value resp) /\
    response pre = [] /\
    audit_records pre =
      [(req_Action get_time_request,
        marshal_or_empty Codec.json (ActionRequest_Value get_time_request),
        marshal_or_empty Codec.json (map_Value resp), err)] /\
    scratch_removed pre = scratch_created pre.
Proof.
  apply (proj1 (response_follows_audit Codec.json (host registered_script_prints) config
                  [get_time] (post "get_time") get_time_request 0
                  ltac:(split; vm_compute; reflexivity))
           (outcome registered_run) (registered_run.1.2)).
  vm_compute. reflexivity.
Defined.

Lemma registered_actions_agree_witness :
  (exists resp,
      outcome registered_resolve_run = Returned resp /\
      (outcome registered_resolve_run_main = Returned (resp, []) \/
       outcome registered_resolve_run_main = Exited 1)) /\
  execs (trace registered_resolve_run_main) = execs (trace registered_resolve_run) /\
  exists res,
    trace registered_resolve_run_main =
      trace registered_resolve_run ++ [EvReadFile "systemPrompt.txt" res] ++
      match res with
      | Ok _ => []
      | Err e => [EvLog ("Error reading systemPrompt.txt: " +:+ Error e)]
      end.
Proof.
  apply (registered_actions_agree Codec.json (host registered_script_prints) config
           [get_time] get_time_request get_time 0
           (outcome registered_resolve_run) (registered_resolve_run.1.2)
           (trace registered_resolve_run)
           (outcome registered_resolve_run_main) (registered_resolve_run_main.1.2)
           (trace registered_resolve_run_main)
           eq_refl not_a_directive_get_time).
  - vm_compute. reflexivity.
  - vm_compute. reflexivity.
Defined.

Lemma generated_code_is_what_runs_witness :
  exists file g code,
    envelope_received Codec.json (trace scanned_run) g /\
    generated_code g = Some code /\
    scratch_created (trace scanned_run) = [file] /\
    scratch_written (trace scanned_run) = [(file, code, None)] /\
    runs_only [file] (trace scanned_run).
Proof.
  apply (proj1 (generated_code_is_what_runs Codec.json (host generated_script_prints)
                  config [get_time] ask 0)
           (outcome scanned_run) (scanned_run.1.2) (trace scanned_run)).
  - vm_compute. reflexivity.
  - vm_compute. discriminate.
  - vm_compute. discriminate.
Defined.
